(** * Brain Connectivity Toolbox adapters of TVB

    A shallow embedding of [tvb/adapters/analyzers/bct_adapters.py]: the
    adapter classes that hand a connectivity matrix to an external
    MATLAB/Octave engine and wrap the returned values in
    [ConnectivityMeasure] and [ValueWrapper] objects.

    Python objects that the adapters only pass around are records; the
    dictionaries ([kwargs], the engine's result) are [gmap string _];
    exceptions and the effects on the logger, on the worker and on the
    engine are threaded through a small state-and-error monad. *)

From Stdlib Require Import ZArith Ascii String List.
From Stdlib Require SpecFloat.
From stdpp Require Import base option gmap strings list pretty.

Local Open Scope string_scope.
Local Open Scope Z_scope.

(** ** Python values exchanged with the engine *)

(** A Python [float] is an IEEE 754 binary64 number. *)
Abbreviation pyfloat := SpecFloat.spec_float.

Definition float_prec : Z := 53.
Definition float_emax : Z := 1024.

(** What the engine hands back under a result name: a scalar or a (numpy)
    array, the latter nested for more than one dimension. *)
#[warnings="-register-all"] Inductive value : Type :=
| VInt (z : Z)
| VFloat (f : pyfloat)
| VArray (items : list value).

(** The exceptions that can cross the adapter. [EngineError] stands for
    whatever the worker itself raises (engine missing, unreachable). *)
Inductive exn : Type :=
| KeyError (key : string)
| TypeError
| ValueError
| OverflowError
| AttributeError
| EngineError (msg : string).

Definition outcome (A : Type) : Type := exn + A.

(** [float(n)] for a Python integer: round to nearest even; a magnitude
    beyond the largest finite double raises. *)
Definition float_of_int (z : Z) : outcome pyfloat :=
  match SpecFloat.binary_normalize float_prec float_emax z 0 false with
  | SpecFloat.S754_infinity _ => inl OverflowError
  | f => inr f
  end.

(** [int(x)] for a Python float: truncation towards zero. *)
Definition int_of_float (f : pyfloat) : outcome Z :=
  match f with
  | SpecFloat.S754_zero _ => inr 0
  | SpecFloat.S754_infinity _ => inl OverflowError
  | SpecFloat.S754_nan => inl ValueError
  | SpecFloat.S754_finite s m e =>
      let mag := if 0 <=? e then Z.shiftl (Z.pos m) e
                 else Z.shiftr (Z.pos m) (- e) in
      inr (if s then - mag else mag)
  end.

(** The builtin [float]: identity on floats, conversion on integers, and
    on an array only when it holds exactly one element. *)
Fixpoint py_float (v : value) : outcome pyfloat :=
  match v with
  | VInt z => float_of_int z
  | VFloat f => inr f
  | VArray [x] => py_float x
  | VArray _ => inl TypeError
  end.

(** The builtin [int], with the same rule for arrays. *)
Fixpoint py_int (v : value) : outcome Z :=
  match v with
  | VInt z => inr z
  | VFloat f => int_of_float f
  | VArray [x] => py_int x
  | VArray _ => inl TypeError
  end.

(** ** Objects owned by the framework *)

(** Python object identity for the connectivity handed to an adapter. *)
Abbreviation loc := positive.

(** [tvb.datatypes.connectivity.Connectivity], reduced to what the adapters
    and their input filter touch. *)
Record Connectivity : Type := {
  weights : value;
  _undirected : bool
}.

(** [tvb.datatypes.graph.ConnectivityMeasure]; [connectivity] refers to
    the caller's object, it is not a copy. *)
Record ConnectivityMeasure : Type := {
  cm_storage_path : string;
  array_data : value;
  connectivity : loc;
  title : string;
  label_x : string;
  label_y : string
}.

(** [tvb.datatypes.mapped_values.ValueWrapper]. *)
Record ValueWrapper : Type := {
  vw_storage_path : string;
  data_value : value;
  data_type : string;
  data_name : string
}.

(** An element of the list a [launch] returns. *)
Inductive output : Type :=
| Measure (m : ConnectivityMeasure)
| Wrapper (w : ValueWrapper).

(** The datatype classes named in input trees and output declarations. *)
Inductive datatype_class : Type :=
| ConnectivityClass
| ConnectivityMeasureClass
| ValueWrapperClass.

Definition class_of (o : output) : datatype_class :=
  match o with
  | Measure _ => ConnectivityMeasureClass
  | Wrapper _ => ValueWrapperClass
  end.

(** [tvb.core.entities.model.AlgorithmTransientGroup]. *)
Record AlgorithmTransientGroup : Type := {
  group_name : string;
  group_description : string;
  subsection_name : string
}.

(** [tvb.basic.filters.chain.FilterChain], as constructed here. *)
Record FilterChain : Type := {
  fields : list string;
  operations : list string;
  values : list string
}.

(** One dictionary of an input tree; the [conditions] key is optional. *)
Record input_entry : Type := {
  name : string;
  label : string;
  type : datatype_class;
  required : bool;
  conditions : option FilterChain
}.

(** [TvbProfile.current]: an unset setting is [None]. *)
Record TvbProfile : Type := {
  EXTERNALS_FOLDER_PARENT : string;
  MATLAB_EXECUTABLE : option string
}.

(** ** Effects *)

(** What an adapter does to the outside, in program order. *)
Inductive event : Type :=
| AddToPath (path : string)
| LogInfo (msg : string)
| LogDebug (msg : string)
| RunMatlab (code : string) (data : gmap string value).

(** What [MatlabWorker.matlab] does: return the run code, the log and the
    named results, or raise. *)
Inductive reply : Type :=
| Returned (runcode : Z) (matlablog : string) (res : gmap string value)
| Raised (e : exn).

(** The state an adapter call runs in: the framework's connectivity
    objects and the effects so far, latest first. *)
Record world : Type := {
  objects : gmap loc Connectivity;
  history : list event
}.

Definition M (A : Type) : Type := world -> outcome A * world.

Definition ret {A} (a : A) : M A := fun w => (inr a, w).

Definition raise {A} (e : exn) : M A := fun w => (inl e, w).

Definition bind {A B} (m : M A) (k : A -> M B) : M B :=
  fun w => match m w with
           | (inr a, w') => k a w'
           | (inl e, w') => (inl e, w')
           end.

Definition lift {A} (r : outcome A) : M A := fun w => (r, w).

Definition emit (ev : event) : M unit :=
  fun w => (inr tt, {| objects := objects w; history := ev :: history w |}).

Definition get_world : M world := fun w => (inr w, w).

Notation "x <- m ;; k" := (bind m (fun x => k))
  (at level 100, m at next level, right associativity).
Notation "m ;;; k" := (bind m (fun _ => k))
  (at level 100, right associativity).

(** [d[key]] on a dictionary. *)
Definition getitem {A} (d : gmap string A) (key : string) : outcome A :=
  match d !! key with
  | Some v => inr v
  | None => inl (KeyError key)
  end.

(** Attribute access on the object behind a reference; a reference to
    anything but a connectivity has no such attribute. *)
Definition getattr {A} (c : loc) (field : Connectivity -> A) : M A :=
  w <- get_world ;;
  match objects w !! c with
  | Some o => ret (field o)
  | None => raise AttributeError
  end.

(** Passing a dictionary as [**kwargs] to a function: Python refuses a
    keyword whose name is already bound by the call, before the body of
    the function runs. *)
Definition keyword_collision (bound : list string)
    (kwargs : gmap string value) : bool :=
  existsb (fun n => bool_decide (is_Some (kwargs !! n))) bound.

(** [os.path.join] of two POSIX components. *)
Definition os_path_join (a b : string) : string :=
  if String.prefix "/" b then b
  else if (String.eqb a "" || String.eqb (String.substring (String.length a - 1) 1 a) "/")%bool
       then a ++ b
       else a ++ "/" ++ b.

(** ** The adapters *)

(** Class attributes, looked up through [self]. *)
Record attributes : Type := {
  _ui_group : AlgorithmTransientGroup;
  _ui_connectivity_label : string;
  _ui_name : string;
  _ui_description : string;
  _matlab_code : string
}.

(** An adapter object: its class attributes and what the framework set on
    the instance. *)
Record instance : Type := {
  attrs : attributes;
  storage_path : string
}.

(** A concrete adapter class: attributes and the two methods that
    subclasses override. A subclass that defines neither method carries
    its parent's. *)
Record adapter_class : Type := {
  class_attributes : attributes;
  get_input_tree : instance -> list input_entry;
  launch : instance -> loc -> gmap string value -> M (list output)
}.

Definition BCT_GROUP_MODULARITY : AlgorithmTransientGroup :=
  {| group_name := "Modularity Algorithms";
     group_description := "Brain Connectivity Toolbox";
     subsection_name := "bct" |}.

Definition BCT_GROUP_DISTANCE : AlgorithmTransientGroup :=
  {| group_name := "Distance Algorithms";
     group_description := "Brain Connectivity Toolbox";
     subsection_name := "bctdistance" |}.

Definition LABEL_CONNECTIVITY_BINARY : string :=
  "Binary (directed/undirected) connection matrix".
Definition LABEL_CONN_WEIGHTED_DIRECTED : string :=
  "Weighted directed connection matrix".
Definition LABEL_CONN_WEIGHTED_UNDIRECTED : string :=
  "Weighted undirected connection matrix".

(** Truth value of a setting: [None] and the empty string are false. *)
Definition truthy (v : option string) : bool :=
  match v with
  | None => false
  | Some s => negb (String.eqb s "")
  end.

(** The concrete classes of this module, by name. *)
Inductive variant : Type :=
| OCSM | OpCSMU | DBIN | DWEI | RDM | RDA | NETW.

Section Adapters.

(** The collaborators outside this module. *)
Variable current : TvbProfile.
Variable extract_matlab_doc_string : string -> string.
Variable FilterChain_datatype : string.
Variable matlab : string -> gmap string value -> reply.
Variable str_of_dict : gmap string value -> string.

Definition BCT_PATH : string :=
  os_path_join (EXTERNALS_FOLDER_PARENT current) "externals/BCT".

Definition bct_description (mat_file_name : string) : string :=
  extract_matlab_doc_string (os_path_join BCT_PATH mat_file_name).

(** *** BaseBCT *)

Definition BaseBCT_ui_connectivity_label : string := "Connection matrix:".

Definition can_be_active : bool :=
  negb (negb (truthy (MATLAB_EXECUTABLE current))).

Definition BaseBCT_get_input_tree (self : instance) : list input_entry :=
  [ {| name := "connectivity";
       label := _ui_connectivity_label (attrs self);
       type := ConnectivityClass;
       required := true;
       conditions := None |} ].

Definition get_output : list datatype_class :=
  [ConnectivityMeasureClass; ValueWrapperClass].

Definition get_required_memory_size : Z := -1.

Definition get_required_disk_size : Z := 0.

Definition execute_matlab (self : instance) (matlab_code : string)
    (kwargs : gmap string value) : M (gmap string value) :=
  emit (AddToPath BCT_PATH) ;;;
  emit (LogInfo ("Starting execution of MATLAB code:" ++ matlab_code)) ;;;
  emit (RunMatlab matlab_code kwargs) ;;;
  match matlab matlab_code kwargs with
  | Raised e => raise e
  | Returned runcode matlablog result =>
      emit (LogDebug ("Code run in MATLAB: " ++ pretty runcode)) ;;;
      emit (LogDebug ("MATLAB log: " ++ matlablog)) ;;;
      emit (LogDebug ("Finished MATLAB execution:" ++ str_of_dict result)) ;;;
      ret result
  end.

(** The names that a call [self.execute_matlab(code, **kwargs)] binds
    before it looks at the keywords. *)
Definition execute_matlab_parameters : list string :=
  ["self"; "matlab_code"].

(** The call [self.execute_matlab(matlab_code, **kwargs)] as the launches
    write it: a keyword named like one of the method's own parameters
    makes the call raise [TypeError], and the method does not run. *)
Definition call_execute_matlab (self : instance) (matlab_code : string)
    (kwargs : gmap string value) : M (gmap string value) :=
  if keyword_collision execute_matlab_parameters kwargs
  then raise TypeError
  else execute_matlab self matlab_code kwargs.

Definition build_connectivity_measure (self : instance)
    (result : gmap string value) (key : string) (conn : loc)
    (title label_x label_y : string) : M ConnectivityMeasure :=
  data <- lift (getitem result key) ;;
  ret {| cm_storage_path := storage_path self;
         array_data := data;
         connectivity := conn;
         title := title;
         label_x := label_x;
         label_y := label_y |}.

Definition build_float_value_wrapper (self : instance)
    (result : gmap string value) (key : string) (title : string)
    : M ValueWrapper :=
  raw <- lift (getitem result key) ;;
  f <- lift (py_float raw) ;;
  ret {| vw_storage_path := storage_path self;
         data_value := VFloat f;
         data_type := "float";
         data_name := title |}.

Definition build_int_value_wrapper (self : instance)
    (result : gmap string value) (key : string) (title : string)
    : M ValueWrapper :=
  raw <- lift (getitem result key) ;;
  n <- lift (py_int raw) ;;
  ret {| vw_storage_path := storage_path self;
         data_value := VInt n;
         data_type := "int";
         data_name := title |}.

(** *** BaseUndirected *)

Definition BaseUndirected_ui_connectivity_label : string :=
  "Undirected connection matrix:".

Definition BaseUndirected_get_input_tree (self : instance)
    : list input_entry :=
  [ {| name := "connectivity";
       label := _ui_connectivity_label (attrs self);
       type := ConnectivityClass;
       required := true;
       conditions :=
         Some {| fields := [FilterChain_datatype ++ "._undirected"];
                 operations := ["=="];
                 values := ["1"] |} |} ].

(** *** ModularityOCSM and ModularityOpCSMU *)

Definition ModularityOCSM_launch (self : instance) (conn : loc)
    (kwargs : gmap string value) : M (list output) :=
  w <- getattr conn weights ;;
  let kwargs := <["CW" := w]> kwargs in
  result <- call_execute_matlab self (_matlab_code (attrs self)) kwargs ;;
  measure <- build_connectivity_measure self result "Ci" conn
               "Optimal Community Structure" "" "" ;;
  value <- build_float_value_wrapper self result "Q" "Maximized Modularity" ;;
  ret [Measure measure; Wrapper value].

Definition ModularityOCSM : adapter_class :=
  {| class_attributes :=
       {| _ui_group := BCT_GROUP_MODULARITY;
          _ui_connectivity_label :=
            "Directed (weighted or binary) connection matrix:";
          _ui_name := "Optimal Community Structure and Modularity";
          _ui_description := bct_description "modularity_dir.m";
          _matlab_code := "[Ci,Q] = modularity_dir(CW);" |};
     get_input_tree := BaseBCT_get_input_tree;
     launch := ModularityOCSM_launch |}.

Definition ModularityOpCSMU : adapter_class :=
  {| class_attributes :=
       {| _ui_group := _ui_group (class_attributes ModularityOCSM);
          _ui_connectivity_label :=
            _ui_connectivity_label (class_attributes ModularityOCSM);
          _ui_name :=
            "Optimal Community Structure and Modularity (Undirected)";
          _ui_description := bct_description "modularity_und.m";
          _matlab_code := "[Ci,Q] = modularity_und(CW);" |};
     get_input_tree := get_input_tree ModularityOCSM;
     launch := launch ModularityOCSM |}.

(** *** The distance family *)

Definition DistanceDBIN_launch (self : instance) (conn : loc)
    (kwargs : gmap string value) : M (list output) :=
  w <- getattr conn weights ;;
  let kwargs := <["A" := w]> kwargs in
  result <- call_execute_matlab self (_matlab_code (attrs self)) kwargs ;;
  measure <- build_connectivity_measure self result "D" conn
               "Distance matrix" "" "" ;;
  ret [Measure measure].

Definition DistanceDBIN : adapter_class :=
  {| class_attributes :=
       {| _ui_group := BCT_GROUP_DISTANCE;
          _ui_connectivity_label := BaseBCT_ui_connectivity_label;
          _ui_name := "Distance binary matrix";
          _ui_description := bct_description "distance_bin.m";
          _matlab_code := "D = distance_bin(A);" |};
     get_input_tree := BaseBCT_get_input_tree;
     launch := DistanceDBIN_launch |}.

Definition DistanceDWEI : adapter_class :=
  {| class_attributes :=
       {| _ui_group := _ui_group (class_attributes DistanceDBIN);
          _ui_connectivity_label :=
            "Weighted (directed/undirected) connection matrix:";
          _ui_name := "Distance weighted matrix";
          _ui_description := bct_description "distance_wei.m";
          _matlab_code := "D = distance_wei(A);" |};
     get_input_tree := get_input_tree DistanceDBIN;
     launch := launch DistanceDBIN |}.

Definition DistanceRDM_launch (self : instance) (conn : loc)
    (kwargs : gmap string value) : M (list output) :=
  w <- getattr conn weights ;;
  let kwargs := <["A" := w]> kwargs in
  result <- call_execute_matlab self (_matlab_code (attrs self)) kwargs ;;
  measure1 <- build_connectivity_measure self result "R" conn
                "Reachability matrix" "" "" ;;
  measure2 <- build_connectivity_measure self result "D" conn
                "Distance matrix" "" "" ;;
  ret [Measure measure1; Measure measure2].

Definition DistanceRDM : adapter_class :=
  {| class_attributes :=
       {| _ui_group := _ui_group (class_attributes DistanceDBIN);
          _ui_connectivity_label :=
            _ui_connectivity_label (class_attributes DistanceDBIN);
          _ui_name :=
            "Reachability and distance matrices (Breadth-first search)";
          _ui_description := bct_description "breadthdist.m";
          _matlab_code := "[R,D] = breadthdist(A);" |};
     get_input_tree := get_input_tree DistanceDBIN;
     launch := DistanceRDM_launch |}.

Definition DistanceRDA : adapter_class :=
  {| class_attributes :=
       {| _ui_group := _ui_group (class_attributes DistanceRDM);
          _ui_connectivity_label :=
            _ui_connectivity_label (class_attributes DistanceRDM);
          _ui_name :=
            "Reachability and distance matrices (Algebraic path count)";
          _ui_description := bct_description "reachdist.m";
          _matlab_code := "[R,D] = reachdist(A);" |};
     get_input_tree := get_input_tree DistanceRDM;
     launch := launch DistanceRDM |}.

Definition DistanceNETW_launch (self : instance) (conn : loc)
    (kwargs : gmap string value) : M (list output) :=
  w <- getattr conn weights ;;
  let kwargs := <["A" := w]> kwargs in
  result <- call_execute_matlab self (_matlab_code (attrs self)) kwargs ;;
  measure1 <- build_connectivity_measure self result "Wq" conn
                "3D matrix" "" "" ;;
  measure2 <- build_connectivity_measure self result "wlq" conn
                "Walk length distribution" "" "" ;;
  value <- build_float_value_wrapper self result "twalk"
             "Total number of walks found" ;;
  ret [Measure measure1; Wrapper value; Measure measure2].

Definition DistanceNETW : adapter_class :=
  {| class_attributes :=
       {| _ui_group := _ui_group (class_attributes DistanceDBIN);
          _ui_connectivity_label :=
            _ui_connectivity_label (class_attributes DistanceDBIN);
          _ui_name := "Network walks";
          _ui_description := bct_description "findwalks.m";
          _matlab_code := "[Wq,twalk,wlq]  = findwalks(A);" |};
     get_input_tree := get_input_tree DistanceDBIN;
     launch := DistanceNETW_launch |}.

(** Instantiating a class; the framework sets the storage path. *)
Definition new (cls : adapter_class) (path : string) : instance :=
  {| attrs := class_attributes cls; storage_path := path |}.

(** *** Input filtering *)

(** Modelled from the spec: the stored columns of a connectivity that a
    filter field can name; only the symmetry flag is described, kept as
    ['1'] or ['0']. *)
Definition column (c : Connectivity) (field : string) : option string :=
  if String.eqb field (FilterChain_datatype ++ "._undirected")
  then Some (if _undirected c then "1" else "0")
  else None.

(** Modelled from the spec: one (field, operation, value) triple of a
    filter, for the equality operation the adapters declare. *)
Definition condition_holds (c : Connectivity) (field op val : string)
    : bool :=
  match column c field with
  | Some x => String.eqb op "==" && String.eqb x val
  | None => false
  end.

(** Modelled from the spec: a filter holds when all its triples do. *)
Fixpoint conditions_hold (c : Connectivity) (fs ops vs : list string)
    : bool :=
  match fs, ops, vs with
  | [], _, _ => true
  | f :: fs', op :: ops', v :: vs' =>
      condition_holds c f op v && conditions_hold c fs' ops' vs'
  | _, _, _ => false
  end.

(** Modelled from the spec: the framework's check of an input against an
    entry's declared filter, which this module only declares: "a
    structural predicate checked against the input's declared symmetry
    flag before execution". An entry without conditions admits every
    connectivity. *)
Definition entry_accepts (e : input_entry) (c : Connectivity) : bool :=
  match conditions e with
  | None => true
  | Some fc => conditions_hold c (fields fc) (operations fc) (values fc)
  end.

(** Modelled from the spec: an input passes a tree when it passes each
    entry. *)
Definition schema_accepts (tree : list input_entry) (c : Connectivity)
    : bool :=
  forallb (fun e => entry_accepts e c) tree.

(** *** The variants as a table *)

Definition variant_class (v : variant) : adapter_class :=
  match v with
  | OCSM => ModularityOCSM
  | OpCSMU => ModularityOpCSMU
  | DBIN => DistanceDBIN
  | DWEI => DistanceDWEI
  | RDM => DistanceRDM
  | RDA => DistanceRDA
  | NETW => DistanceNETW
  end.

End Adapters.

(** ** Vocabulary for the statements *)

(** The engine requests recorded in a history, latest first. *)
Fixpoint engine_calls (h : list event)
    : list (string * gmap string value) :=
  match h with
  | [] => []
  | RunMatlab code data :: h' => (code, data) :: engine_calls h'
  | _ :: h' => engine_calls h'
  end.

(** Messages written to the debug log, latest first. *)
Fixpoint debug_log (h : list event) : list string :=
  match h with
  | [] => []
  | LogDebug msg :: h' => msg :: debug_log h'
  | _ :: h' => debug_log h'
  end.

(** Sequencing of outcomes: the first exception wins. *)
Definition and_then {A B} (r : outcome A) (k : A -> outcome B) : outcome B :=
  match r with
  | inr a => k a
  | inl e => inl e
  end.

(** Which result name each variant's [launch] turns into which kind of
    output, in the order of the returned list. *)
Definition result_mapping (v : variant) : list (string * datatype_class) :=
  match v with
  | OCSM | OpCSMU =>
      [("Ci", ConnectivityMeasureClass); ("Q", ValueWrapperClass)]
  | DBIN | DWEI => [("D", ConnectivityMeasureClass)]
  | RDM | RDA =>
      [("R", ConnectivityMeasureClass); ("D", ConnectivityMeasureClass)]
  | NETW =>
      [("Wq", ConnectivityMeasureClass); ("twalk", ValueWrapperClass);
       ("wlq", ConnectivityMeasureClass)]
  end.

(** The result holds every name the variant reads. *)
Definition has_keys (res : gmap string value) (v : variant) : bool :=
  forallb (fun kc => bool_decide (is_Some (res !! kc.1))) (result_mapping v).

(** Every name the variant wraps as a float holds something [float]
    accepts. *)
Definition scalars_convert (res : gmap string value) (v : variant) : bool :=
  forallb (fun kc =>
             match kc.2, res !! kc.1 with
             | ValueWrapperClass, Some x =>
                 match py_float x with inr _ => true | inl _ => false end
             | _, _ => true
             end) (result_mapping v).

(** The world once the engine has answered a request: the objects as they
    were, six more entries in the history. *)
Definition after_request (current : TvbProfile)
    (str_of_dict : gmap string value -> string) (code : string)
    (kwargs : gmap string value) (runcode : Z) (matlablog : string)
    (res : gmap string value) (w : world) : world :=
  {| objects := objects w;
     history :=
       LogDebug ("Finished MATLAB execution:" ++ str_of_dict res)
       :: LogDebug ("MATLAB log: " ++ matlablog)
       :: LogDebug ("Code run in MATLAB: " ++ pretty runcode)
       :: RunMatlab code kwargs
       :: LogInfo ("Starting execution of MATLAB code:" ++ code)
       :: AddToPath (BCT_PATH current)
       :: history w |}.

(** The world once the worker has raised on a request. *)
Definition after_failed_request (current : TvbProfile) (code : string)
    (kwargs : gmap string value) (w : world) : world :=
  {| objects := objects w;
     history :=
       RunMatlab code kwargs
       :: LogInfo ("Starting execution of MATLAB code:" ++ code)
       :: AddToPath (BCT_PATH current)
       :: history w |}.

(** The measure a builder makes from a value it found. *)
Definition measure_of (self : instance) (conn : loc) (t : string)
    (data : value) : ConnectivityMeasure :=
  {| cm_storage_path := storage_path self;
     array_data := data;
     connectivity := conn;
     title := t; label_x := ""; label_y := "" |}.

(** The float wrapper a builder makes from a converted value. *)
Definition float_wrapper_of (self : instance) (t : string) (f : pyfloat)
    : ValueWrapper :=
  {| vw_storage_path := storage_path self;
     data_value := VFloat f;
     data_type := "float";
     data_name := t |}.

(** The name under which a variant's [launch] passes the weights. *)
Definition request_key (v : variant) : string :=
  match v with
  | OCSM | OpCSMU => "CW"
  | DBIN | DWEI | RDM | RDA | NETW => "A"
  end.

(** What a variant's [launch] makes of the engine's result, as one pure
    function; the lookups happen in the order of the source. *)
Definition outputs_of (v : variant) (self : instance) (conn : loc)
    (res : gmap string value) : outcome (list output) :=
  match v with
  | OCSM | OpCSMU =>
      and_then (getitem res "Ci") (fun ci =>
      and_then (getitem res "Q") (fun q =>
      and_then (py_float q) (fun f =>
        inr [Measure (measure_of self conn "Optimal Community Structure" ci);
             Wrapper (float_wrapper_of self "Maximized Modularity" f)])))
  | DBIN | DWEI =>
      and_then (getitem res "D") (fun d =>
        inr [Measure (measure_of self conn "Distance matrix" d)])
  | RDM | RDA =>
      and_then (getitem res "R") (fun r =>
      and_then (getitem res "D") (fun d =>
        inr [Measure (measure_of self conn "Reachability matrix" r);
             Measure (measure_of self conn "Distance matrix" d)]))
  | NETW =>
      and_then (getitem res "Wq") (fun wq =>
      and_then (getitem res "wlq") (fun wlq =>
      and_then (getitem res "twalk") (fun twalk =>
      and_then (py_float twalk) (fun f =>
        inr [Measure (measure_of self conn "3D matrix" wq);
             Wrapper (float_wrapper_of self "Total number of walks found" f);
             Measure (measure_of self conn "Walk length distribution" wlq)]))))
  end.

(** A [launch] seen from outside: read the weights, pass the keywords,
    make one request, map the result. The launches of the source are
    shown to run like this. *)
Definition launch_spec (current : TvbProfile)
    (matlab : string -> gmap string value -> reply)
    (str_of_dict : gmap string value -> string) (v : variant)
    (self : instance) (conn : loc) (kwargs : gmap string value)
    : M (list output) :=
  fun w =>
    match objects w !! conn with
    | None => (inl AttributeError, w)
    | Some c =>
        let data := <[request_key v := weights c]> kwargs in
        if keyword_collision execute_matlab_parameters kwargs
        then (inl TypeError, w)
        else
          match matlab (_matlab_code (attrs self)) data with
          | Raised e =>
              (inl e,
               after_failed_request current (_matlab_code (attrs self))
                 data w)
          | Returned runcode matlablog res =>
              (outputs_of v self conn res,
               after_request current str_of_dict (_matlab_code (attrs self))
                 data runcode matlablog res w)
          end
    end.

(** An output made from what the result stores under a name: a measure
    carries the stored value, a wrapper [float] of it. *)
Definition built_from (res : gmap string value) (key : string)
    (o : output) : Prop :=
  match o with
  | Measure m => res !! key = Some (array_data m)
  | Wrapper x =>
      exists raw f,
        res !! key = Some raw /\ py_float raw = inr f
        /\ data_value x = VFloat f
  end.

(** Is the outcome a normal return? *)
Definition succeeded {A} (r : outcome A) : bool :=
  match r with inr _ => true | inl _ => false end.

(** The order in which a variant's [launch] reads the result. *)
Definition lookup_order (v : variant) : list string :=
  match v with
  | OCSM | OpCSMU => ["Ci"; "Q"]
  | DBIN | DWEI => ["D"]
  | RDM | RDA => ["R"; "D"]
  | NETW => ["Wq"; "wlq"; "twalk"]
  end.

(** *** Reading a snippet

    The snippets all have the shape [[a,b] = f(x);] or [a = f(x);]. *)

Fixpoint take_until (c : ascii) (s : string) : string :=
  match s with
  | EmptyString => EmptyString
  | String a s' => if Ascii.eqb a c then EmptyString
                   else String a (take_until c s')
  end.

Fixpoint drop_through (c : ascii) (s : string) : string :=
  match s with
  | EmptyString => EmptyString
  | String a s' => if Ascii.eqb a c then s' else drop_through c s'
  end.

Fixpoint strip_spaces (s : string) : string :=
  match s with
  | EmptyString => EmptyString
  | String a s' => if Ascii.eqb a " "%char then strip_spaces s'
                   else String a (strip_spaces s')
  end.

Definition cons_name (cur : string) (rest : list string) : list string :=
  if String.eqb cur "" then rest else cur :: rest.

Fixpoint assigned_names_go (s : string) : string * list string :=
  match s with
  | EmptyString => (EmptyString, [])
  | String a s' =>
      if Ascii.eqb a "="%char then (EmptyString, [])
      else
        let '(cur, rest) := assigned_names_go s' in
        if Ascii.eqb a ","%char then (EmptyString, cons_name cur rest)
        else if (Ascii.eqb a "["%char || Ascii.eqb a "]"%char || Ascii.eqb a " "%char)%bool
             then (cur, rest)
             else (String a cur, rest)
  end.

(** The names left of the equals sign, in order. *)
Definition assigned_names (snippet : string) : list string :=
  let '(cur, rest) := assigned_names_go snippet in cons_name cur rest.

(** The function the snippet calls. *)
Definition called_function (snippet : string) : string :=
  strip_spaces (take_until "("%char (drop_through "="%char snippet)).

(** The variable the snippet passes to it. *)
Definition call_argument (snippet : string) : string :=
  take_until ")"%char (drop_through "("%char snippet).

(** ** A concrete installation, for running the adapters *)

Definition sample_profile : TvbProfile :=
  {| EXTERNALS_FOLDER_PARENT := "/opt/tvb";
     MATLAB_EXECUTABLE := Some "/usr/bin/octave" |}.

Definition sample_doc (path : string) : string := "doc of " ++ path.

Definition sample_datatype : string := "datatype".

Definition sample_str (d : gmap string value) : string := "{...}".

(** The double nearest to 0.42. *)
Definition f042 : pyfloat :=
  SpecFloat.S754_finite false 7566047373982433 (-54).

Definition sample_weights : value :=
  VArray [VArray [VInt 0; VInt 1; VInt 0];
          VArray [VInt 0; VInt 0; VInt 1];
          VArray [VInt 1; VInt 0; VInt 0]].

Definition sample_partition : value := VArray [VInt 1; VInt 1; VInt 2].

Definition sample_connectivity : Connectivity :=
  {| weights := sample_weights; _undirected := false |}.

Definition sample_world : world :=
  {| objects := {[ 1%positive := sample_connectivity ]}; history := [] |}.

(** The answer of the modularity scenario: [{Ci: [1,1,2], Q: 0.42}]. *)
Definition sample_result : gmap string value :=
  <["Ci" := sample_partition]> (<["Q" := VFloat f042]> ∅).

(** An engine that answers every request with that partition and score,
    under the given run code and log. *)
Definition modularity_engine (runcode : Z) (matlablog : string)
    (code : string) (data : gmap string value) : reply :=
  Returned runcode matlablog sample_result.

(** A walk statistics answer with the given total. *)
Definition walks_result (twalk : value) : gmap string value :=
  <["Wq" := sample_weights]>
    (<["twalk" := twalk]> (<["wlq" := sample_partition]> ∅)).

Definition walks_engine (twalk : value) (code : string)
    (data : gmap string value) : reply :=
  Returned 0 "" (walks_result twalk).

(** A total as MATLAB hands it over, a 1x1 matrix, and one that is not a
    scalar. *)
Definition scalar_total : value := VArray [VArray [VInt 12]].
Definition vector_total : value := VArray [VInt 3; VInt 4].

(** An adapter object whose files go to [/data]. *)
Definition sample_instance : instance :=
  new (ModularityOCSM sample_profile sample_doc (modularity_engine 0 "")
         sample_str) "/data".

(** An engine that answers every request with the given result. *)
Definition constant_engine (res : gmap string value) (code : string)
    (data : gmap string value) : reply :=
  Returned 0 "" res.

(** An engine that cannot be started. *)
Definition broken_engine (code : string) (data : gmap string value)
    : reply :=
  Raised (EngineError "matlab: command not found").

(** A reachability and distance answer. *)
Definition distance_result : gmap string value :=
  <["R" := sample_weights]> (<["D" := sample_partition]> ∅).

(** The double 12.0. *)
Definition f12 : pyfloat := SpecFloat.S754_finite false 6755399441055744 (-49).

(** A call without extra keywords. *)
Definition no_keywords : gmap string value := ∅.

(** Keywords as in [launch(connectivity, CW=7, gamma=1)]. *)
Definition extra_kwargs : gmap string value :=
  <["CW" := VInt 7]> (<["gamma" := VInt 1]> ∅).

(** A modularity answer whose score is not a scalar. *)
Definition unconvertible_result : gmap string value :=
  <["Ci" := sample_partition]> (<["Q" := vector_total]> ∅).

(** Keywords as in [launch(connectivity, matlab_code=5)]. *)
Definition colliding_kwargs : gmap string value :=
  {["matlab_code" := VInt 5]}.

(** ** How the shared methods run *)

Section Facts.

Variable current : TvbProfile.
Variable extract_matlab_doc_string : string -> string.
Variable FilterChain_datatype : string.
Variable matlab : string -> gmap string value -> reply.
Variable str_of_dict : gmap string value -> string.

Local Abbreviation class_of_variant :=
  (variant_class current extract_matlab_doc_string matlab str_of_dict).
Local Abbreviation run_matlab := (execute_matlab current matlab str_of_dict).

(** The world after one request that the engine answered. *)
Lemma execute_matlab_returned self code kwargs runcode matlablog res w :
  matlab code kwargs = Returned runcode matlablog res ->
  execute_matlab current matlab str_of_dict self code kwargs w =
    (inr res,
     after_request current str_of_dict code kwargs runcode matlablog res w).
Proof.
  intros Hreply. unfold execute_matlab, bind, emit. cbn [objects history].
  rewrite Hreply. reflexivity.
Qed.

(** The world after one request on which the worker raised. *)
Lemma execute_matlab_raised self code kwargs e w :
  matlab code kwargs = Raised e ->
  execute_matlab current matlab str_of_dict self code kwargs w =
    (inl e, after_failed_request current code kwargs w).
Proof.
  intros Hreply. unfold execute_matlab, bind, emit. cbn [objects history].
  rewrite Hreply. reflexivity.
Qed.

(** Whatever the engine does, [execute_matlab] asks it once and leaves
    the framework's objects alone. *)
Lemma execute_matlab_effects self code kwargs w :
  let w' := snd (execute_matlab current matlab str_of_dict self code kwargs w) in
  objects w' = objects w
  /\ engine_calls (history w') = (code, kwargs) :: engine_calls (history w).
Proof.
  destruct (matlab code kwargs) as [rc lg res|e] eqn:Hreply.
  - rewrite (execute_matlab_returned _ _ _ _ _ _ _ Hreply). now split.
  - rewrite (execute_matlab_raised _ _ _ _ _ Hreply). now split.
Qed.

(** The builders only look at their arguments. *)
Lemma build_connectivity_measure_run self res key conn t lx ly w :
  build_connectivity_measure self res key conn t lx ly w =
    (and_then (getitem res key) (fun data =>
       inr {| cm_storage_path := storage_path self;
              array_data := data;
              connectivity := conn;
              title := t; label_x := lx; label_y := ly |}),
     w).
Proof.
  unfold build_connectivity_measure, bind, lift, ret.
  now destruct (getitem res key).
Qed.

Lemma build_float_value_wrapper_run self res key t w :
  build_float_value_wrapper self res key t w =
    (and_then (getitem res key) (fun raw =>
     and_then (py_float raw) (fun f =>
       inr {| vw_storage_path := storage_path self;
              data_value := VFloat f;
              data_type := "float";
              data_name := t |})),
     w).
Proof.
  unfold build_float_value_wrapper, bind, lift, ret.
  destruct (getitem res key) as [e|raw]; [reflexivity|].
  simpl. now destruct (py_float raw).
Qed.

Lemma build_int_value_wrapper_run self res key t w :
  build_int_value_wrapper self res key t w =
    (and_then (getitem res key) (fun raw =>
     and_then (py_int raw) (fun n =>
       inr {| vw_storage_path := storage_path self;
              data_value := VInt n;
              data_type := "int";
              data_name := t |})),
     w).
Proof.
  unfold build_int_value_wrapper, bind, lift, ret.
  destruct (getitem res key) as [e|raw]; [reflexivity|].
  simpl. now destruct (py_int raw).
Qed.

Lemma getitem_Some {A} (d : gmap string A) key v :
  d !! key = Some v -> getitem d key = inr v.
Proof. intros H. unfold getitem. now rewrite H. Qed.

Lemma getitem_None {A} (d : gmap string A) key :
  d !! key = None -> getitem d key = inl (KeyError key).
Proof. intros H. unfold getitem. now rewrite H. Qed.

Lemma bind_run {A B} (m : M A) (k : A -> M B) w r w' :
  m w = (r, w') ->
  bind m k w = match r with
               | inr a => k a w'
               | inl e => (inl e, w')
               end.
Proof. intros H. unfold bind. now rewrite H. Qed.

Lemma getattr_run {A} conn (field : Connectivity -> A) c w :
  objects w !! conn = Some c -> getattr conn field w = (inr (field c), w).
Proof. intros H. unfold getattr, bind, get_world. now rewrite H. Qed.

Lemma getattr_missing {A} conn (field : Connectivity -> A) w :
  objects w !! conn = None -> getattr conn field w = (inl AttributeError, w).
Proof. intros H. unfold getattr, bind, get_world. now rewrite H. Qed.

(** *** Each [launch] is one request followed by its result mapping *)

Lemma keyword_collision_insert key x (kwargs : gmap string value) :
  key <> "self" -> key <> "matlab_code" ->
  keyword_collision execute_matlab_parameters (<[key := x]> kwargs)
    = keyword_collision execute_matlab_parameters kwargs.
Proof.
  intros Hself Hcode. unfold keyword_collision, execute_matlab_parameters.
  cbn [existsb]. now rewrite !lookup_insert_ne.
Qed.

Lemma launch_steps (key : string)
    (post : gmap string value -> outcome (list output))
    (body : gmap string value -> M (list output)) self conn kwargs w :
  key <> "self" -> key <> "matlab_code" ->
  (forall res w', body res w' = (post res, w')) ->
  bind (getattr conn weights) (fun x =>
    bind (call_execute_matlab current matlab str_of_dict self
            (_matlab_code (attrs self)) (<[key := x]> kwargs)) body) w =
  match objects w !! conn with
  | None => (inl AttributeError, w)
  | Some c =>
      let data := <[key := weights c]> kwargs in
      if keyword_collision execute_matlab_parameters kwargs
      then (inl TypeError, w)
      else
        match matlab (_matlab_code (attrs self)) data with
        | Raised e =>
            (inl e,
             after_failed_request current (_matlab_code (attrs self)) data w)
        | Returned runcode matlablog res =>
            (post res,
             after_request current str_of_dict (_matlab_code (attrs self))
               data runcode matlablog res w)
        end
  end.
Proof.
  intros Hself Hcode Hbody.
  destruct (objects w !! conn) as [c|] eqn:Hconn.
  - rewrite (bind_run _ _ _ _ _ (getattr_run conn weights c w Hconn)).
    cbv zeta. unfold call_execute_matlab.
    rewrite (keyword_collision_insert key (weights c) kwargs Hself Hcode).
    destruct (keyword_collision execute_matlab_parameters kwargs);
      [reflexivity|].
    destruct (matlab (_matlab_code (attrs self)) (<[key := weights c]> kwargs))
      as [rc lg res|e] eqn:Hreply.
    + rewrite (bind_run _ _ _ _ _
                 (execute_matlab_returned self _ _ _ _ _ w Hreply)).
      apply Hbody.
    + now rewrite (bind_run _ _ _ _ _
                     (execute_matlab_raised self _ _ _ w Hreply)).
  - now rewrite (bind_run _ _ _ _ _ (getattr_missing conn weights w Hconn)).
Qed.

Lemma launch_unfold v self conn kwargs w :
  launch (variant_class current extract_matlab_doc_string matlab
            str_of_dict v) self conn kwargs w =
  launch_spec current matlab str_of_dict v self conn kwargs w.
Proof.
  unfold launch_spec.
  destruct v; cbn [variant_class launch ModularityOCSM ModularityOpCSMU
                     DistanceDBIN DistanceDWEI DistanceRDM DistanceRDA
                     DistanceNETW request_key outputs_of];
    (apply launch_steps; [discriminate|discriminate|]); intros res w';
    repeat first
      [ erewrite bind_run by apply build_connectivity_measure_run
      | erewrite bind_run by apply build_float_value_wrapper_run
      | match goal with
        | |- context [getitem res ?k] =>
            destruct (getitem res k); [reflexivity|]; cbn [and_then]
        | |- context [py_float ?x] =>
            destruct (py_float x); [reflexivity|]; cbn [and_then]
        end ];
    reflexivity.
Qed.

(** ** The execution bridge *)

(** C3, as the code has it: [execute_matlab] asks the engine once, and
    when the engine answers it returns the named results to the caller
    whatever the run code is; run code and engine log go to the debug log
    only. An exception of the worker reaches the caller as it is. *)
Theorem execute_matlab_forwards_result self code kwargs w :
  let r := run_matlab self code kwargs w in
  engine_calls (history (snd r)) = (code, kwargs) :: engine_calls (history w)
  /\ objects (snd r) = objects w
  /\ match matlab code kwargs with
     | Returned runcode matlablog res =>
         fst r = inr res
         /\ debug_log (history (snd r)) =
              ("Finished MATLAB execution:" ++ str_of_dict res)
              :: ("MATLAB log: " ++ matlablog)
              :: ("Code run in MATLAB: " ++ pretty runcode)
              :: debug_log (history w)
     | Raised e => fst r = inl e
     end.
Proof.
  cbv zeta.
  destruct (matlab code kwargs) as [rc lg res|e] eqn:Hreply.
  - rewrite (execute_matlab_returned _ _ _ _ _ _ _ Hreply). now repeat split.
  - rewrite (execute_matlab_raised _ _ _ _ _ Hreply). now repeat split.
Qed.

(** ** The output builders *)

(** C5: the measure built from a key that is present carries the value
    stored under that key, untouched, and the builder changes nothing. *)
Theorem build_connectivity_measure_payload
    self (res : gmap string value) key conn t lx ly v w :
  res !! key = Some v ->
  exists m,
    build_connectivity_measure self res key conn t lx ly w = (inr m, w)
    /\ array_data m = v
    /\ connectivity m = conn
    /\ title m = t /\ label_x m = lx /\ label_y m = ly.
Proof.
  intros Hkey. rewrite build_connectivity_measure_run.
  rewrite (getitem_Some _ _ _ Hkey). cbn [and_then].
  eexists. split; [reflexivity|]. now repeat split.
Qed.

(** C6, as the code has it: an absent key makes each builder raise
    [KeyError] for that key; with the key present the measure builder
    succeeds, and a wrapper builder returns the wrapper of the converted
    value when its conversion accepts the stored value and raises the
    conversion's own exception when it does not. *)
Theorem builders_key_contract self (res : gmap string value) key conn t lx ly w :
  (res !! key = None ->
     fst (build_connectivity_measure self res key conn t lx ly w)
       = inl (KeyError key)
     /\ fst (build_float_value_wrapper self res key t w) = inl (KeyError key)
     /\ fst (build_int_value_wrapper self res key t w) = inl (KeyError key))
  /\ (forall v, res !! key = Some v ->
        succeeded (fst (build_connectivity_measure self res key conn t lx ly w))
          = true
        /\ (forall e, py_float v = inl e ->
              fst (build_float_value_wrapper self res key t w) = inl e)
        /\ (forall f, py_float v = inr f ->
              fst (build_float_value_wrapper self res key t w) =
                inr {| vw_storage_path := storage_path self;
                       data_value := VFloat f;
                       data_type := "float";
                       data_name := t |})
        /\ (forall e, py_int v = inl e ->
              fst (build_int_value_wrapper self res key t w) = inl e)
        /\ (forall n, py_int v = inr n ->
              fst (build_int_value_wrapper self res key t w) =
                inr {| vw_storage_path := storage_path self;
                       data_value := VInt n;
                       data_type := "int";
                       data_name := t |})).
Proof.
  rewrite build_connectivity_measure_run, build_float_value_wrapper_run,
    build_int_value_wrapper_run. cbn [fst]. split.
  - intros Hkey. rewrite (getitem_None _ _ Hkey). now repeat split.
  - intros v Hkey. rewrite (getitem_Some _ _ _ Hkey). cbn [and_then].
    repeat split; intros x Hx; now rewrite Hx.
Qed.


(** ** Launching *)

(** What every [launch] does to the world: the framework's objects stay
    as they are and the engine is asked once, provided the connectivity
    is one and the keywords can be passed on. *)
Lemma launch_effects v self conn kwargs c w :
  objects w !! conn = Some c ->
  keyword_collision execute_matlab_parameters kwargs = false ->
  let r := launch (class_of_variant v) self conn kwargs w in
  objects (snd r) = objects w
  /\ engine_calls (history (snd r)) =
       (_matlab_code (attrs self), <[request_key v := weights c]> kwargs)
       :: engine_calls (history w).
Proof.
  intros Hconn Hfree. cbv zeta. rewrite launch_unfold. unfold launch_spec.
  rewrite Hconn, Hfree. cbv zeta.
  now destruct (matlab _ _).
Qed.

Lemma launch_outputs v self conn kwargs c runcode matlablog res w :
  objects w !! conn = Some c ->
  keyword_collision execute_matlab_parameters kwargs = false ->
  matlab (_matlab_code (attrs self)) (<[request_key v := weights c]> kwargs)
    = Returned runcode matlablog res ->
  fst (launch (class_of_variant v) self conn kwargs w)
    = outputs_of v self conn res.
Proof.
  intros Hconn Hfree Hreply. rewrite launch_unfold. unfold launch_spec.
  rewrite Hconn, Hfree. cbv zeta. now rewrite Hreply.
Qed.

(** A keyword that [execute_matlab] binds itself stops [launch] at the
    call: [TypeError], and the world as it was. *)
Lemma launch_collision v self conn kwargs c w :
  objects w !! conn = Some c ->
  keyword_collision execute_matlab_parameters kwargs = true ->
  launch (class_of_variant v) self conn kwargs w = (inl TypeError, w).
Proof.
  intros Hconn Hclash. rewrite launch_unfold. unfold launch_spec.
  now rewrite Hconn, Hclash.
Qed.

(** C1, as the code has it: launching [ModularityOCSM] on a connectivity
    with weights [W], with keywords that [execute_matlab] does not bind
    itself, sends the engine the snippet ["[Ci,Q] = modularity_dir(CW);"]
    with [CW] bound to [W]; from a result holding ['Ci'] and a ['Q'] that
    [float] accepts it returns the measure of [result['Ci']] titled
    "Optimal Community Structure" followed by the float wrapper of
    [float(result['Q'])] titled "Maximized Modularity". *)
Theorem ModularityOCSM_launch_scenario path conn kwargs c w :
  objects w !! conn = Some c ->
  keyword_collision execute_matlab_parameters kwargs = false ->
  let self := new (class_of_variant OCSM) path in
  let data := <["CW" := weights c]> kwargs in
  let r := launch (class_of_variant OCSM) self conn kwargs w in
  engine_calls (history (snd r)) =
    ("[Ci,Q] = modularity_dir(CW);", data) :: engine_calls (history w)
  /\ data !! "CW" = Some (weights c)
  /\ forall runcode matlablog res ci q f,
       matlab "[Ci,Q] = modularity_dir(CW);" data
         = Returned runcode matlablog res ->
       res !! "Ci" = Some ci ->
       res !! "Q" = Some q ->
       py_float q = inr f ->
       fst r =
         inr [Measure {| cm_storage_path := path;
                         array_data := ci;
                         connectivity := conn;
                         title := "Optimal Community Structure";
                         label_x := ""; label_y := "" |};
              Wrapper {| vw_storage_path := path;
                         data_value := VFloat f;
                         data_type := "float";
                         data_name := "Maximized Modularity" |}].
Proof.
  intros Hconn Hfree. cbv zeta. split; [|split].
  - exact (proj2 (launch_effects OCSM (new (class_of_variant OCSM) path)
                    conn kwargs c w Hconn Hfree)).
  - apply lookup_insert_eq.
  - intros rc lg res ci q f Hreply Hci Hq Hf.
    rewrite (launch_outputs OCSM (new (class_of_variant OCSM) path)
               conn kwargs c rc lg res w Hconn Hfree Hreply).
    cbn [outputs_of].
    rewrite (getitem_Some _ _ _ Hci), (getitem_Some _ _ _ Hq).
    cbn [and_then]. now rewrite Hf.
Qed.

(** Where each output of a variant comes from, name by name and kind by
    kind, in the order of its result mapping. *)
Lemma outputs_of_follow_mapping v self conn (res : gmap string value) outs :
  outputs_of v self conn res = inr outs ->
  Forall2 (fun kc o => built_from res kc.1 o /\ class_of o = kc.2)
    (result_mapping v) outs.
Proof.
  intros Hout.
  destruct v; cbn [result_mapping]; cbn [outputs_of] in Hout;
    unfold getitem in Hout;
    repeat match type of Hout with
      | context [res !! ?k] =>
          destruct (res !! k) eqn:?; cbn [and_then] in Hout;
          [|discriminate Hout]
      | context [py_float ?x] =>
          destruct (py_float x) eqn:?; cbn [and_then] in Hout;
          [discriminate Hout|]
      end;
    injection Hout as <-;
    repeat (constructor;
            [split; [|reflexivity];
             cbn [built_from fst measure_of float_wrapper_of array_data
                  data_value];
             first [assumption | eauto]|]);
    constructor.
Qed.

(** The result mapping of a variant fixes the kinds of its outputs, once
    the lookups and the conversions go through. *)
Lemma outputs_of_kinds v self conn (res : gmap string value) :
  has_keys res v = true ->
  scalars_convert res v = true ->
  exists outs,
    outputs_of v self conn res = inr outs
    /\ outs <> []
    /\ map class_of outs = map snd (result_mapping v)
    /\ Forall (fun o => In (class_of o) get_output) outs.
Proof.
  unfold has_keys, scalars_convert.
  destruct v; cbn [result_mapping forallb fst snd outputs_of];
    intros Hkeys Hconv;
    repeat match goal with
      | H : _ && _ = true |- _ => apply andb_true_iff in H; destruct H
      end;
    repeat match goal with
      | H : bool_decide (is_Some (_ !! ?k)) = true |- _ =>
          apply bool_decide_eq_true in H; destruct H as [? H];
          rewrite (getitem_Some _ _ _ H); try rewrite H in *
      end;
    cbn [and_then];
    repeat match goal with
      | |- context [py_float ?x] => destruct (py_float x); [discriminate|]
      end;
    cbn [and_then];
    (eexists; split; [reflexivity|]);
    (split; [discriminate|]);
    (split; [reflexivity|]);
    unfold get_output; repeat apply Forall_cons; try apply Forall_nil;
    cbn [In class_of]; auto.
Qed.

(** C4, as the code has it: when the keywords are ones that
    [execute_matlab] does not bind itself, the result holds the names a
    variant reads and [float] accepts what is stored under the names it
    wraps as scalars, [launch] returns a non-empty list of measures and
    wrappers whose kinds, in order, are those of the variant's result
    mapping, each built from the name at its place; for the walk
    statistics that is measure, scalar, measure. *)
Theorem launch_output_kinds v path conn kwargs c runcode matlablog res w :
  objects w !! conn = Some c ->
  keyword_collision execute_matlab_parameters kwargs = false ->
  matlab (_matlab_code (class_attributes (class_of_variant v)))
         (<[request_key v := weights c]> kwargs)
    = Returned runcode matlablog res ->
  has_keys res v = true ->
  scalars_convert res v = true ->
  exists outs,
    fst (launch (class_of_variant v) (new (class_of_variant v) path)
           conn kwargs w) = inr outs
    /\ outs <> []
    /\ map class_of outs = map snd (result_mapping v)
    /\ Forall (fun o => In (class_of o) get_output) outs
    /\ Forall2 (fun kc o => built_from res kc.1 o) (result_mapping v) outs
    /\ map snd (result_mapping NETW) =
         [ConnectivityMeasureClass; ValueWrapperClass;
          ConnectivityMeasureClass].
Proof.
  intros Hconn Hfree Hreply Hkeys Hconv.
  rewrite (launch_outputs v (new (class_of_variant v) path) conn kwargs c
             runcode matlablog res w Hconn Hfree Hreply).
  destruct (outputs_of_kinds v (new (class_of_variant v) path) conn res
              Hkeys Hconv) as (outs & Hout & Hne & Hkinds & Hall).
  exists outs. repeat split; try assumption.
  eapply Forall2_impl; [exact (outputs_of_follow_mapping _ _ _ _ _ Hout)|].
  now intros kc o [Hfrom _].
Qed.

(** C9: no [launch] and no builder writes to the connectivity it is
    given: the framework's objects are the same before and after, every
    measure returned refers to the very object passed in, and the
    builders leave the whole world as it was. *)
Theorem launch_leaves_connectivity_unchanged v self conn kwargs w :
  let r := launch (class_of_variant v) self conn kwargs w in
  objects (snd r) = objects w
  /\ (forall outs m, fst r = inr outs -> In (Measure m) outs ->
        connectivity m = conn)
  /\ (forall res key t lx ly w',
        snd (build_connectivity_measure self res key conn t lx ly w') = w'
        /\ snd (build_float_value_wrapper self res key t w') = w'
        /\ snd (build_int_value_wrapper self res key t w') = w').
Proof.
  cbv zeta. rewrite launch_unfold. unfold launch_spec.
  split; [|split].
  - destruct (objects w !! conn); [|reflexivity]. cbv zeta.
    destruct (keyword_collision _ _); [reflexivity|].
    now destruct (matlab _ _).
  - intros outs m.
    destruct (objects w !! conn) as [c|]; [|discriminate]. cbv zeta.
    destruct (keyword_collision _ _); [discriminate|].
    destruct (matlab _ _) as [rc lg res|e]; [|discriminate]. cbn [fst].
    intros Houts Hin.
    destruct v; cbn [outputs_of] in Houts;
      repeat match type of Houts with
        | context [getitem res ?k] =>
            destruct (getitem res k); cbn [and_then] in Houts
        | context [py_float ?x] =>
            destruct (py_float x); cbn [and_then] in Houts
        end;
      try discriminate Houts;
      injection Houts as <-; cbn [In] in Hin;
      repeat destruct Hin as [Hin|Hin];
      try discriminate Hin; try contradiction;
      now injection Hin as <-.
  - intros res key t lx ly w'.
    now rewrite build_connectivity_measure_run, build_float_value_wrapper_run,
      build_int_value_wrapper_run.
Qed.

(** C10: a subclass that overrides only class attributes
    ([ModularityOpCSMU] over [ModularityOCSM], [DistanceDWEI] over
    [DistanceDBIN]) runs its parent's [launch] and input tree: whatever
    the keywords, it sends the engine the same parameters as its parent
    does, and on the same answer from the engine returns the same
    outputs; the requests differ in the snippet alone. *)
Theorem metadata_only_subclass_agrees vc vp path conn kwargs c w :
  (vc, vp) = (OpCSMU, OCSM) \/ (vc, vp) = (DWEI, DBIN) ->
  objects w !! conn = Some c ->
  let child := class_of_variant vc in
  let parent := class_of_variant vp in
  let data := <[request_key vp := weights c]> kwargs in
  let rc := launch child (new child path) conn kwargs w in
  let rp := launch parent (new parent path) conn kwargs w in
  launch child = launch parent
  /\ get_input_tree child = get_input_tree parent
  /\ map snd (engine_calls (history (snd rc)))
       = map snd (engine_calls (history (snd rp)))
  /\ (keyword_collision execute_matlab_parameters kwargs = false ->
      engine_calls (history (snd rc)) =
        (_matlab_code (class_attributes child), data)
        :: engine_calls (history w)
      /\ engine_calls (history (snd rp)) =
           (_matlab_code (class_attributes parent), data)
           :: engine_calls (history w))
  /\ _matlab_code (class_attributes child)
       <> _matlab_code (class_attributes parent)
  /\ (matlab (_matlab_code (class_attributes child)) data
        = matlab (_matlab_code (class_attributes parent)) data ->
      fst rc = fst rp).
Proof.
  intros Hpair Hconn. cbv zeta.
  assert (Hkey : request_key vc = request_key vp)
    by (destruct Hpair as [[= -> ->]|[= -> ->]]; reflexivity).
  split; [destruct Hpair as [[= -> ->]|[= -> ->]]; reflexivity|].
  split; [destruct Hpair as [[= -> ->]|[= -> ->]]; reflexivity|].
  destruct (keyword_collision execute_matlab_parameters kwargs) eqn:Hfree.
  { rewrite !(launch_collision _ _ _ _ _ _ Hconn Hfree).
    split; [reflexivity|]. split; [discriminate|].
    split; [destruct Hpair as [[= -> ->]|[= -> ->]]; discriminate|].
    reflexivity. }
  pose proof (proj2 (launch_effects vc (new (class_of_variant vc) path)
                       conn kwargs c w Hconn Hfree)) as Hc.
  pose proof (proj2 (launch_effects vp (new (class_of_variant vp) path)
                       conn kwargs c w Hconn Hfree)) as Hp.
  rewrite Hkey in Hc.
  split; [now rewrite Hc, Hp|].
  split; [intros _; split; [exact Hc|exact Hp]|].
  split; [destruct Hpair as [[= -> ->]|[= -> ->]]; discriminate|].
  intros Hsame. rewrite !launch_unfold. unfold launch_spec.
  rewrite Hconn, Hfree. cbv zeta. rewrite Hkey. unfold new. cbn [attrs].
  rewrite Hsame.
  destruct (matlab (_matlab_code (class_attributes (class_of_variant vp))) _);
    [|reflexivity].
  cbn [fst]. destruct Hpair as [[= -> ->]|[= -> ->]]; reflexivity.
Qed.

(** ** Input trees *)

(** The filter that [BaseUndirected] declares lets a connectivity through
    exactly when its symmetry flag is set. *)
Lemma BaseUndirected_filters_by_flag self c :
  schema_accepts FilterChain_datatype
    (BaseUndirected_get_input_tree FilterChain_datatype self) c
  = _undirected c.
Proof.
  unfold schema_accepts, BaseUndirected_get_input_tree, entry_accepts.
  cbn [forallb conditions fields operations values conditions_hold].
  unfold condition_holds, column. rewrite String.eqb_refl.
  now destruct (_undirected c).
Qed.

(** No class of this module declares a condition on its input. *)
Lemma variants_declare_no_condition v self c :
  Forall (fun e => conditions e = None)
    (get_input_tree (class_of_variant v) self)
  /\ schema_accepts FilterChain_datatype
       (get_input_tree (class_of_variant v) self) c = true.
Proof.
  destruct v; split; try reflexivity; repeat constructor.
Qed.

(** C2, where the code departs from it: the variant named
    "(Undirected)" takes the unfiltered input tree of its directed
    parent, label included, so its schema lets every connectivity
    through, while the tree of [BaseUndirected] would turn away those
    whose symmetry flag is not set. *)
Theorem ModularityOpCSMU_schema_is_unfiltered path c :
  let cls := class_of_variant OpCSMU in
  let tree := get_input_tree cls (new cls path) in
  _ui_name (class_attributes cls) =
    "Optimal Community Structure and Modularity (Undirected)"
  /\ tree = [ {| name := "connectivity";
                 label := "Directed (weighted or binary) connection matrix:";
                 type := ConnectivityClass;
                 required := true;
                 conditions := None |} ]
  /\ schema_accepts FilterChain_datatype tree c = true
  /\ schema_accepts FilterChain_datatype
       (BaseUndirected_get_input_tree FilterChain_datatype (new cls path)) c
     = _undirected c.
Proof.
  cbv zeta. split; [reflexivity|]. split; [reflexivity|].
  split; [reflexivity|]. apply BaseUndirected_filters_by_flag.
Qed.

(** ** More on launching *)

(** X1: launching [DistanceDBIN] on a connectivity with weights [W],
    with keywords that [execute_matlab] does not bind itself, sends the
    engine ["D = distance_bin(A);"] with [A] bound to [W]; from a result
    holding ['D'] it returns the one measure of [result['D']], titled
    "Distance matrix". *)
Theorem DistanceDBIN_launch_scenario path conn kwargs c w :
  objects w !! conn = Some c ->
  keyword_collision execute_matlab_parameters kwargs = false ->
  let self := new (class_of_variant DBIN) path in
  let data := <["A" := weights c]> kwargs in
  let r := launch (class_of_variant DBIN) self conn kwargs w in
  engine_calls (history (snd r)) =
    ("D = distance_bin(A);", data) :: engine_calls (history w)
  /\ forall runcode matlablog res d,
       matlab "D = distance_bin(A);" data = Returned runcode matlablog res ->
       res !! "D" = Some d ->
       fst r = inr [Measure {| cm_storage_path := path;
                               array_data := d;
                               connectivity := conn;
                               title := "Distance matrix";
                               label_x := ""; label_y := "" |}].
Proof.
  intros Hconn Hfree. cbv zeta. split.
  - exact (proj2 (launch_effects DBIN (new (class_of_variant DBIN) path)
                    conn kwargs c w Hconn Hfree)).
  - intros rc lg res d Hreply Hd.
    rewrite (launch_outputs DBIN (new (class_of_variant DBIN) path)
               conn kwargs c rc lg res w Hconn Hfree Hreply).
    cbn [outputs_of]. now rewrite (getitem_Some _ _ _ Hd).
Qed.

(** X2: launching [DistanceRDM], with keywords that [execute_matlab] does
    not bind itself, sends ["[R,D] = breadthdist(A);"] with [A] bound to
    the weights and returns two measures, the reachability
    matrix [result['R']] first and the distance matrix [result['D']]
    second. *)
Theorem DistanceRDM_launch_scenario path conn kwargs c w :
  objects w !! conn = Some c ->
  keyword_collision execute_matlab_parameters kwargs = false ->
  let self := new (class_of_variant RDM) path in
  let data := <["A" := weights c]> kwargs in
  let r := launch (class_of_variant RDM) self conn kwargs w in
  engine_calls (history (snd r)) =
    ("[R,D] = breadthdist(A);", data) :: engine_calls (history w)
  /\ forall runcode matlablog res reach dist,
       matlab "[R,D] = breadthdist(A);" data
         = Returned runcode matlablog res ->
       res !! "R" = Some reach ->
       res !! "D" = Some dist ->
       fst r = inr [Measure {| cm_storage_path := path;
                               array_data := reach;
                               connectivity := conn;
                               title := "Reachability matrix";
                               label_x := ""; label_y := "" |};
                    Measure {| cm_storage_path := path;
                               array_data := dist;
                               connectivity := conn;
                               title := "Distance matrix";
                               label_x := ""; label_y := "" |}].
Proof.
  intros Hconn Hfree. cbv zeta. split.
  - exact (proj2 (launch_effects RDM (new (class_of_variant RDM) path)
                    conn kwargs c w Hconn Hfree)).
  - intros rc lg res reach dist Hreply Hr Hd.
    rewrite (launch_outputs RDM (new (class_of_variant RDM) path)
               conn kwargs c rc lg res w Hconn Hfree Hreply).
    cbn [outputs_of].
    now rewrite (getitem_Some _ _ _ Hr), (getitem_Some _ _ _ Hd).
Qed.

(** X3: launching [DistanceNETW], with keywords that [execute_matlab]
    does not bind itself, sends ["[Wq,twalk,wlq]  = findwalks(A);"] with
    [A] bound to the weights and returns, in this order, the measure
    of [result['Wq']], the float wrapper of [float(result['twalk'])] and
    the measure of [result['wlq']], under their three titles. *)
Theorem DistanceNETW_launch_scenario path conn kwargs c w :
  objects w !! conn = Some c ->
  keyword_collision execute_matlab_parameters kwargs = false ->
  let self := new (class_of_variant NETW) path in
  let data := <["A" := weights c]> kwargs in
  let r := launch (class_of_variant NETW) self conn kwargs w in
  engine_calls (history (snd r)) =
    ("[Wq,twalk,wlq]  = findwalks(A);", data) :: engine_calls (history w)
  /\ forall runcode matlablog res wq twalk wlq,
       matlab "[Wq,twalk,wlq]  = findwalks(A);" data
         = Returned runcode matlablog res ->
       res !! "Wq" = Some wq ->
       res !! "twalk" = Some twalk ->
       res !! "wlq" = Some wlq ->
       fst r =
         and_then (py_float twalk) (fun f =>
           inr [Measure {| cm_storage_path := path;
                           array_data := wq;
                           connectivity := conn;
                           title := "3D matrix";
                           label_x := ""; label_y := "" |};
                Wrapper {| vw_storage_path := path;
                           data_value := VFloat f;
                           data_type := "float";
                           data_name := "Total number of walks found" |};
                Measure {| cm_storage_path := path;
                           array_data := wlq;
                           connectivity := conn;
                           title := "Walk length distribution";
                           label_x := ""; label_y := "" |}]).
Proof.
  intros Hconn Hfree. cbv zeta. split.
  - exact (proj2 (launch_effects NETW (new (class_of_variant NETW) path)
                    conn kwargs c w Hconn Hfree)).
  - intros rc lg res wq twalk wlq Hreply Hwq Htwalk Hwlq.
    rewrite (launch_outputs NETW (new (class_of_variant NETW) path)
               conn kwargs c rc lg res w Hconn Hfree Hreply).
    cbn [outputs_of].
    now rewrite (getitem_Some _ _ _ Hwq), (getitem_Some _ _ _ Hwlq),
      (getitem_Some _ _ _ Htwalk).
Qed.

(** X5: a keyword named ['matlab_code'] stops every [launch] at its call
    of [execute_matlab]: [TypeError], with no path added, no line logged
    and the engine not asked. Keywords that [execute_matlab] does not bind
    itself are handed on to the engine: the request holds the weights
    under the variant's parameter name, replacing whatever the caller
    passed under that name, and every other keyword as the caller gave
    it. *)
Theorem launch_forwards_kwargs v self conn kwargs c w :
  objects w !! conn = Some c ->
  let r := launch (class_of_variant v) self conn kwargs w in
  (is_Some (kwargs !! "matlab_code") -> r = (inl TypeError, w))
  /\ (keyword_collision execute_matlab_parameters kwargs = false ->
      exists data,
        engine_calls (history (snd r))
          = (_matlab_code (attrs self), data) :: engine_calls (history w)
        /\ data !! request_key v = Some (weights c)
        /\ (forall k, k <> request_key v -> data !! k = kwargs !! k)
        /\ dom data = {[request_key v]} ∪ dom kwargs).
Proof.
  intros Hconn. cbv zeta. split.
  - intros Hclash. apply (launch_collision v self conn kwargs c w Hconn).
    unfold keyword_collision, execute_matlab_parameters. cbn [existsb].
    rewrite (bool_decide_eq_true_2 _ Hclash). now rewrite !orb_true_r.
  - intros Hfree. exists (<[request_key v := weights c]> kwargs).
    split;
      [exact (proj2 (launch_effects v self conn kwargs c w Hconn Hfree))|].
    split; [apply lookup_insert_eq|].
    split; [intros k Hk; now apply lookup_insert_ne|].
    apply dom_insert_L.
Qed.

(** X6: when the keywords are ones that [execute_matlab] does not bind
    itself and the worker raises on the request, [launch] raises the same
    exception; the request and the info line are in the history, nothing
    reached the debug log, and no output was built. *)
Theorem launch_propagates_engine_exception v self conn kwargs c e w :
  objects w !! conn = Some c ->
  keyword_collision execute_matlab_parameters kwargs = false ->
  matlab (_matlab_code (attrs self)) (<[request_key v := weights c]> kwargs)
    = Raised e ->
  let r := launch (class_of_variant v) self conn kwargs w in
  fst r = inl e
  /\ history (snd r) =
       RunMatlab (_matlab_code (attrs self))
         (<[request_key v := weights c]> kwargs)
       :: LogInfo ("Starting execution of MATLAB code:"
                   ++ _matlab_code (attrs self))
       :: AddToPath (BCT_PATH current)
       :: history w
  /\ debug_log (history (snd r)) = debug_log (history w).
Proof.
  intros Hconn Hfree Hreply. cbv zeta. rewrite launch_unfold.
  unfold launch_spec.
  rewrite Hconn, Hfree. cbv zeta. rewrite Hreply. now repeat split.
Qed.

(** X7: handed something that has no weights, [launch] raises
    [AttributeError] before anything else happens: no path is added, no
    line is logged, the engine is not asked. *)
Theorem launch_without_weights_stops_early v self conn kwargs w :
  objects w !! conn = None ->
  launch (variant_class current extract_matlab_doc_string matlab
            str_of_dict v) self conn kwargs w
    = (inl AttributeError, w).
Proof.
  intros Hconn. rewrite launch_unfold. unfold launch_spec.
  now rewrite Hconn.
Qed.

(** X8: once the keywords have been passed on (none of them a name that
    [execute_matlab] binds itself) and the engine has answered, the
    history has grown by six
    entries, here latest first: the three debug lines with result, engine
    log and run code, the request, the info line with the snippet, and
    the toolbox path added to the worker. This is so whether or not the
    outputs could then be built. *)
Theorem launch_history_after_answer v self conn kwargs c runcode matlablog
    res w :
  objects w !! conn = Some c ->
  keyword_collision execute_matlab_parameters kwargs = false ->
  matlab (_matlab_code (attrs self)) (<[request_key v := weights c]> kwargs)
    = Returned runcode matlablog res ->
  history (snd (launch (class_of_variant v) self conn kwargs w)) =
    LogDebug ("Finished MATLAB execution:" ++ str_of_dict res)
    :: LogDebug ("MATLAB log: " ++ matlablog)
    :: LogDebug ("Code run in MATLAB: " ++ pretty runcode)
    :: RunMatlab (_matlab_code (attrs self))
         (<[request_key v := weights c]> kwargs)
    :: LogInfo ("Starting execution of MATLAB code:"
                ++ _matlab_code (attrs self))
    :: AddToPath (BCT_PATH current)
    :: history w.
Proof.
  intros Hconn Hfree Hreply. rewrite launch_unfold. unfold launch_spec.
  rewrite Hconn, Hfree. cbv zeta. now rewrite Hreply.
Qed.

(** X4: when the keywords have been passed on and the engine has
    answered, but the result lacks a name, [launch] raises [KeyError] for the
    first missing name in the order the source reads them; for the walk
    statistics that order is ['Wq'], ['wlq'], ['twalk'], not the order of
    the returned list. *)
Theorem launch_raises_first_missing_key v self conn kwargs c runcode
    matlablog (res : gmap string value) pre k post w :
  objects w !! conn = Some c ->
  keyword_collision execute_matlab_parameters kwargs = false ->
  matlab (_matlab_code (attrs self)) (<[request_key v := weights c]> kwargs)
    = Returned runcode matlablog res ->
  lookup_order v = (pre ++ k :: post)%list ->
  Forall (fun k' => is_Some (res !! k')) pre ->
  res !! k = None ->
  fst (launch (class_of_variant v) self conn kwargs w) = inl (KeyError k).
Proof.
  intros Hconn Hfree Hreply Horder Hpre Hk.
  rewrite (launch_outputs v self conn kwargs c runcode matlablog res w
             Hconn Hfree Hreply).
  destruct v; cbn [lookup_order] in Horder; cbn [outputs_of];
    repeat (destruct pre as [|? pre]; cbn [app] in Horder;
            [first [discriminate Horder | injection Horder as <- <-]
            |first [discriminate Horder
                   |injection Horder as <- Horder;
                    apply Forall_cons in Hpre as [[? Hp] Hpre];
                    rewrite (getitem_Some _ _ _ Hp); clear Hp;
                    cbn [and_then]]]);
    now rewrite (getitem_None _ _ Hk).
Qed.

(** X12: whatever a [launch] returns was read from the engine's result:
    there is one output per name read, each measure carries a stored
    value as it is, the adapter's storage path, the connectivity passed
    in and empty axis labels, and each wrapper is of type ['float'] and
    carries [float] of a stored value. *)
Theorem launch_outputs_come_from_result v self conn kwargs c runcode
    matlablog (res : gmap string value) outs w :
  objects w !! conn = Some c ->
  matlab (_matlab_code (attrs self)) (<[request_key v := weights c]> kwargs)
    = Returned runcode matlablog res ->
  fst (launch (class_of_variant v) self conn kwargs w) = inr outs ->
  length outs = length (lookup_order v)
  /\ (forall m, In (Measure m) outs ->
        (exists k, res !! k = Some (array_data m) /\ In k (lookup_order v))
        /\ cm_storage_path m = storage_path self
        /\ connectivity m = conn
        /\ label_x m = "" /\ label_y m = "")
  /\ (forall x, In (Wrapper x) outs ->
        data_type x = "float"
        /\ vw_storage_path x = storage_path self
        /\ exists k raw f,
             res !! k = Some raw /\ py_float raw = inr f
             /\ data_value x = VFloat f /\ In k (lookup_order v)).
Proof.
  intros Hconn Hreply.
  destruct (keyword_collision execute_matlab_parameters kwargs) eqn:Hfree;
    [now rewrite (launch_collision v self conn kwargs c w Hconn Hfree)|].
  rewrite (launch_outputs v self conn kwargs c runcode matlablog res w
             Hconn Hfree Hreply).
  intros Hout.
  destruct v; cbn [lookup_order]; cbn [outputs_of] in Hout;
    unfold getitem in Hout;
    repeat match type of Hout with
      | context [res !! ?k] =>
          destruct (res !! k) eqn:?; cbn [and_then] in Hout;
          [|discriminate Hout]
      | context [py_float ?x] =>
          destruct (py_float x) eqn:?; cbn [and_then] in Hout;
          [discriminate Hout|]
      end;
    injection Hout as <-;
    (split; [reflexivity|]);
    (split; intros o Hin; cbn [In] in Hin;
     repeat destruct Hin as [Hin|Hin];
     try discriminate Hin; try contradiction;
     injection Hin as <-;
     cbn [measure_of float_wrapper_of array_data cm_storage_path connectivity
          label_x label_y data_type vw_storage_path data_value];
     repeat split;
     repeat eexists; try eassumption; cbn [In]; auto).
Qed.

(** X9: [DistanceRDA] overrides only class attributes of [DistanceRDM]:
    it runs the same [launch] and input tree, whatever the keywords it
    sends the engine the same parameters, and on the same answer from the
    engine returns the same outputs; the requests differ in the snippet
    alone. *)
Theorem DistanceRDA_agrees_with_DistanceRDM path conn kwargs c w :
  objects w !! conn = Some c ->
  let child := class_of_variant RDA in
  let parent := class_of_variant RDM in
  let data := <["A" := weights c]> kwargs in
  let rc := launch child (new child path) conn kwargs w in
  let rp := launch parent (new parent path) conn kwargs w in
  launch child = launch parent
  /\ get_input_tree child = get_input_tree parent
  /\ map snd (engine_calls (history (snd rc)))
       = map snd (engine_calls (history (snd rp)))
  /\ (keyword_collision execute_matlab_parameters kwargs = false ->
      engine_calls (history (snd rc)) =
        ("[R,D] = reachdist(A);", data) :: engine_calls (history w)
      /\ engine_calls (history (snd rp)) =
           ("[R,D] = breadthdist(A);", data) :: engine_calls (history w))
  /\ (matlab "[R,D] = reachdist(A);" data
        = matlab "[R,D] = breadthdist(A);" data ->
      fst rc = fst rp).
Proof.
  intros Hconn. cbv zeta.
  split; [reflexivity|]. split; [reflexivity|].
  destruct (keyword_collision execute_matlab_parameters kwargs) eqn:Hfree.
  { rewrite !(launch_collision _ _ _ _ _ _ Hconn Hfree).
    split; [reflexivity|]. split; [discriminate|]. reflexivity. }
  pose proof (proj2 (launch_effects RDA (new (class_of_variant RDA) path)
                       conn kwargs c w Hconn Hfree)) as Hc.
  pose proof (proj2 (launch_effects RDM (new (class_of_variant RDM) path)
                       conn kwargs c w Hconn Hfree)) as Hp.
  split; [now rewrite Hc, Hp|].
  split; [intros _; split; [exact Hc|exact Hp]|].
  intros Hsame. rewrite !launch_unfold. unfold launch_spec.
  rewrite Hconn, Hfree. cbv zeta. unfold new.
  cbn [attrs class_attributes variant_class DistanceRDA DistanceRDM
       _matlab_code request_key].
  rewrite Hsame.
  now destruct (matlab "[R,D] = breadthdist(A);" _).
Qed.

(** ** Class attributes *)

(** X10: each class's snippet fits its [launch]. The request holds the
    weights under the variable that the snippet passes to the toolbox
    function, and when [launch] returns a list, its outputs are built, one
    by one and in this order, from the names the snippet assigns: each
    measure carries what the result stores under the name at its place,
    each wrapper [float] of it. *)
Theorem snippets_match_launches v path conn kwargs c runcode matlablog
    (res : gmap string value) outs w :
  let cls := class_of_variant v in
  let code := _matlab_code (class_attributes cls) in
  let data := <[call_argument code := weights c]> kwargs in
  let r := launch cls (new cls path) conn kwargs w in
  objects w !! conn = Some c ->
  keyword_collision execute_matlab_parameters kwargs = false ->
  matlab code data = Returned runcode matlablog res ->
  fst r = inr outs ->
  engine_calls (history (snd r)) = (code, data) :: engine_calls (history w)
  /\ Forall2 (built_from res) (assigned_names code) outs.
Proof.
  cbv zeta. intros Hconn Hfree Hreply Hout.
  assert (Harg : call_argument
                   (_matlab_code (class_attributes (class_of_variant v)))
                 = request_key v) by (destruct v; reflexivity).
  assert (Hnames : assigned_names
                     (_matlab_code (class_attributes (class_of_variant v)))
                   = map fst (result_mapping v)) by (destruct v; reflexivity).
  rewrite Harg in *. rewrite Hnames. split.
  - exact (proj2 (launch_effects v (new (class_of_variant v) path)
                    conn kwargs c w Hconn Hfree)).
  - rewrite (launch_outputs v (new (class_of_variant v) path) conn kwargs c
               runcode matlablog res w Hconn Hfree Hreply) in Hout.
    apply Forall2_fmap_l.
    eapply Forall2_impl; [exact (outputs_of_follow_mapping _ _ _ _ _ Hout)|].
    now intros kc o [Hfrom _].
Qed.

(** *** Where the descriptions are read *)

Lemma last_char_append x t :
  t <> "" ->
  String.substring (String.length (x ++ t) - 1) 1 (x ++ t)
    = String.substring (String.length t - 1) 1 t.
Proof.
  intros Ht. induction x as [|a x IH]; [reflexivity|].
  change (String a x ++ t) with (String a (x ++ t)).
  destruct (x ++ t) as [|b s] eqn:Hxt.
  - destruct x; [contradiction|discriminate].
  - rewrite <- IH. cbn [String.length]. rewrite !Nat.sub_1_r.
    reflexivity.
Qed.

Lemma append_nonempty x t : t <> "" -> x ++ t <> "".
Proof. intros Ht. destruct x; [exact Ht|discriminate]. Qed.

(** A relative name joined to a folder that ends in a letter. *)
Lemma os_path_join_under x t f :
  t <> "" ->
  String.substring (String.length t - 1) 1 t <> "/" ->
  String.prefix "/" f = false ->
  os_path_join (x ++ t) f = (x ++ t) ++ "/" ++ f.
Proof.
  intros Ht Hlast Hf. unfold os_path_join. rewrite Hf.
  rewrite (last_char_append x t Ht).
  destruct (String.eqb_spec (x ++ t) "") as [Hemp|_];
    [now apply append_nonempty in Hemp|].
  now destruct (String.eqb_spec
                  (String.substring (String.length t - 1) 1 t) "/").
Qed.

Lemma append_assoc (x y z : string) : (x ++ y) ++ z = x ++ y ++ z.
Proof.
  induction x as [|a x IH]; [reflexivity|].
  change (String a (x ++ y) ++ z = String a (x ++ y ++ z)).
  change (String a ((x ++ y) ++ z) = String a (x ++ y ++ z)).
  now rewrite IH.
Qed.

(** Whatever the parent folder, the toolbox path ends in
    ["externals/BCT"]. *)
Lemma BCT_PATH_shape :
  exists x, BCT_PATH current = x ++ "externals/BCT".
Proof.
  unfold BCT_PATH, os_path_join.
  change (String.prefix "/" "externals/BCT") with false. cbv iota.
  destruct (_ || _).
  - now exists (EXTERNALS_FOLDER_PARENT current).
  - exists (EXTERNALS_FOLDER_PARENT current ++ "/").
    now rewrite append_assoc.
Qed.

(** X15: the description of every class is extracted from the file
    [<function>.m] directly under the toolbox path, where [<function>] is
    the toolbox function the class's snippet calls; this holds for every
    parent folder in the profile, empty or with a trailing slash. *)
Theorem descriptions_document_the_snippet v :
  let attributes := class_attributes (class_of_variant v) in
  _ui_description attributes =
    extract_matlab_doc_string
      (BCT_PATH current ++ "/"
       ++ called_function (_matlab_code attributes) ++ ".m").
Proof.
  cbv zeta. destruct BCT_PATH_shape as [x Hx].
  destruct v;
    cbn [variant_class class_attributes _ui_description _matlab_code
         ModularityOCSM ModularityOpCSMU DistanceDBIN DistanceDWEI
         DistanceRDM DistanceRDA DistanceNETW];
    unfold bct_description; rewrite Hx;
    (rewrite os_path_join_under; [reflexivity|discriminate|discriminate
                                 |reflexivity]).
Qed.

End Facts.

(** ** Availability *)

(** C8: [can_be_active] is false exactly when the configured engine
    executable is unset or the empty string, and true for every non-empty
    path; the profile setting is all it looks at. *)
Theorem can_be_active_iff_path_nonempty (p : TvbProfile) :
  (can_be_active p = false <->
     MATLAB_EXECUTABLE p = None \/ MATLAB_EXECUTABLE p = Some "")
  /\ (forall s, MATLAB_EXECUTABLE p = Some s -> s <> "" ->
        can_be_active p = true)
  /\ (forall q, MATLAB_EXECUTABLE q = MATLAB_EXECUTABLE p ->
        can_be_active q = can_be_active p).
Proof.
  unfold can_be_active. rewrite negb_involutive.
  destruct p as [folder [s|]]; simpl.
  - destruct (String.eqb_spec s "") as [->|Hs]; simpl.
    + split; [split; [intros _; now right | reflexivity] |].
      split; [intros s [= <-] Hne; now destruct Hne |].
      intros q ->. reflexivity.
    + split; [split; [discriminate | intros [H|[= H]]; [discriminate | now destruct Hs]] |].
      split; [reflexivity |].
      intros q ->. simpl. now destruct (String.eqb_spec s "").
  - split; [split; [now left | reflexivity] |].
    split; [discriminate |]. intros q ->. reflexivity.
Qed.

Lemma can_be_active_iff_path_nonempty_witness :
  can_be_active sample_profile = true
  /\ can_be_active {| EXTERNALS_FOLDER_PARENT := "/opt/tvb";
                      MATLAB_EXECUTABLE := Some "" |} = false
  /\ can_be_active {| EXTERNALS_FOLDER_PARENT := "/opt/tvb";
                      MATLAB_EXECUTABLE := None |} = false.
Proof.
  split; [| split].
  - apply (proj1 (proj2 (can_be_active_iff_path_nonempty sample_profile))
             "/usr/bin/octave"); [reflexivity | discriminate].
  - apply (proj1 (can_be_active_iff_path_nonempty _)). right. reflexivity.
  - apply (proj1 (can_be_active_iff_path_nonempty _)). left. reflexivity.
Defined.

(** ** The theorems at work on the sample installation *)

Lemma ModularityOCSM_launch_scenario_witness :
  let cls := ModularityOCSM sample_profile sample_doc
               (modularity_engine 0 "") sample_str in
  fst (launch cls (new cls "/data") 1%positive no_keywords sample_world) =
    inr [Measure {| cm_storage_path := "/data";
                    array_data := VArray [VInt 1; VInt 1; VInt 2];
                    connectivity := 1%positive;
                    title := "Optimal Community Structure";
                    label_x := ""; label_y := "" |};
         Wrapper {| vw_storage_path := "/data";
                    data_value := VFloat f042;
                    data_type := "float";
                    data_name := "Maximized Modularity" |}].
Proof.
  cbv zeta.
  exact (proj2 (proj2 (ModularityOCSM_launch_scenario sample_profile
                         sample_doc (modularity_engine 0 "") sample_str
                         "/data" 1%positive no_keywords sample_connectivity
                         sample_world eq_refl ltac:(vm_compute; reflexivity)))
           0 "" sample_result sample_partition (VFloat f042) f042
           eq_refl eq_refl eq_refl eq_refl).
Defined.

Lemma build_connectivity_measure_payload_witness :
  exists m,
    build_connectivity_measure sample_instance sample_result "Ci" 1%positive
      "Optimal Community Structure" "" "" sample_world = (inr m, sample_world)
    /\ array_data m = sample_partition
    /\ connectivity m = 1%positive
    /\ title m = "Optimal Community Structure"
    /\ label_x m = "" /\ label_y m = "".
Proof.
  apply (build_connectivity_measure_payload sample_instance sample_result
           "Ci" 1%positive "Optimal Community Structure" "" ""
           sample_partition sample_world).
  reflexivity.
Defined.


Lemma builders_key_contract_witness :
  fst (build_float_value_wrapper sample_instance sample_result "twalk"
         "Total number of walks found" sample_world) = inl (KeyError "twalk")
  /\ succeeded (fst (build_connectivity_measure sample_instance sample_result
                       "Ci" 1%positive "" "" "" sample_world)) = true.
Proof.
  split.
  - apply (proj1 (builders_key_contract sample_instance sample_result "twalk"
                    1%positive "Total number of walks found" "" ""
                    sample_world)).
    reflexivity.
  - apply (proj2 (builders_key_contract sample_instance sample_result "Ci"
                    1%positive "" "" "" sample_world) sample_partition).
    reflexivity.
Defined.

Lemma launch_output_kinds_witness :
  let cls := DistanceNETW sample_profile sample_doc
               (walks_engine scalar_total) sample_str in
  exists outs,
    fst (launch cls (new cls "/data") 1%positive no_keywords sample_world) = inr outs
    /\ outs <> []
    /\ map class_of outs =
         [ConnectivityMeasureClass; ValueWrapperClass;
          ConnectivityMeasureClass].
Proof.
  cbv zeta.
  destruct (launch_output_kinds sample_profile sample_doc
              (walks_engine scalar_total) sample_str NETW "/data" 1%positive
              no_keywords sample_connectivity 0 "" (walks_result scalar_total)
              sample_world eq_refl ltac:(vm_compute; reflexivity)
              eq_refl eq_refl eq_refl)
    as (outs & Hout & Hne & Hkinds & _).
  exists outs. split; [exact Hout|]. split; [exact Hne|exact Hkinds].
Defined.

Lemma launch_leaves_connectivity_unchanged_witness :
  let cls := DistanceNETW sample_profile sample_doc
               (walks_engine scalar_total) sample_str in
  objects (snd (launch cls (new cls "/data") 1%positive ∅ sample_world))
    = objects sample_world.
Proof.
  cbv zeta.
  exact (proj1 (launch_leaves_connectivity_unchanged sample_profile
                  sample_doc (walks_engine scalar_total) sample_str NETW
                  (new (DistanceNETW sample_profile sample_doc
                          (walks_engine scalar_total) sample_str) "/data")
                  1%positive ∅ sample_world)).
Defined.

Lemma metadata_only_subclass_agrees_witness :
  let child := ModularityOpCSMU sample_profile sample_doc
                 (modularity_engine 0 "") sample_str in
  let parent := ModularityOCSM sample_profile sample_doc
                  (modularity_engine 0 "") sample_str in
  fst (launch child (new child "/data") 1%positive ∅ sample_world)
    = fst (launch parent (new parent "/data") 1%positive ∅ sample_world).
Proof.
  cbv zeta.
  apply (metadata_only_subclass_agrees sample_profile sample_doc
           (modularity_engine 0 "") sample_str OpCSMU OCSM "/data"
           1%positive ∅ sample_connectivity sample_world).
  - left. reflexivity.
  - reflexivity.
  - reflexivity.
Defined.

(** ** Where the code and the claims part *)

(** An engine that reports run code 1 and an error in its log: the bridge
    still returns the results as after a clean run, and [launch] builds
    the same outputs from them. *)
Lemma execute_matlab_failed_run_counterexample :
  let failing := modularity_engine 1 "error: out of memory" in
  let clean := modularity_engine 0 "" in
  let run engine :=
    launch (ModularityOCSM sample_profile sample_doc engine sample_str)
      sample_instance 1%positive ∅ sample_world in
  failing "[Ci,Q] = modularity_dir(CW);" ∅
    = Returned 1 "error: out of memory" sample_result
  /\ fst (execute_matlab sample_profile failing sample_str sample_instance
            "[Ci,Q] = modularity_dir(CW);" ∅ sample_world)
     = inr sample_result
  /\ succeeded (fst (run failing)) = true
  /\ fst (run failing) = fst (run clean).
Proof. cbv zeta. repeat split. Qed.

(** A modularity answer that holds ['Ci'] and ['Q'], the score a
    two-element array: [launch] raises instead of returning the two
    outputs. And with a keyword named ['matlab_code'] and a clean answer
    at hand, [launch] raises without sending the engine anything. *)
Lemma ModularityOCSM_launch_scenario_counterexample :
  let failing := ModularityOCSM sample_profile sample_doc
                   (constant_engine unconvertible_result) sample_str in
  let clean := ModularityOCSM sample_profile sample_doc
                 (modularity_engine 0 "") sample_str in
  (unconvertible_result !! "Ci" = Some sample_partition
   /\ unconvertible_result !! "Q" = Some vector_total
   /\ fst (launch failing (new failing "/data") 1%positive ∅ sample_world)
      = inl TypeError)
  /\ (let r := launch clean (new clean "/data") 1%positive colliding_kwargs
                 sample_world in
      fst r = inl TypeError /\ engine_calls (history (snd r)) = []).
Proof. cbv zeta. repeat split. Qed.

(** A walk statistics answer that holds every name, with a two-element
    total: [launch] raises instead of returning a list. And with a
    keyword named ['matlab_code'], a scalar total does not help: [launch]
    raises before the engine is asked. *)
Lemma launch_output_kinds_counterexample :
  let failing := DistanceNETW sample_profile sample_doc
                   (walks_engine vector_total) sample_str in
  let clean := DistanceNETW sample_profile sample_doc
                 (walks_engine scalar_total) sample_str in
  (has_keys (walks_result vector_total) NETW = true
   /\ fst (launch failing (new failing "/data") 1%positive ∅ sample_world)
      = inl TypeError)
  /\ (has_keys (walks_result scalar_total) NETW = true
      /\ launch clean (new clean "/data") 1%positive colliding_kwargs
           sample_world
         = (inl TypeError, sample_world)).
Proof. cbv zeta. repeat split. Qed.

(** The key is present, and the float builder raises all the same. *)
Lemma builders_key_contract_counterexample :
  walks_result vector_total !! "twalk" = Some vector_total
  /\ fst (build_float_value_wrapper sample_instance
            (walks_result vector_total) "twalk"
            "Total number of walks found" sample_world)
     = inl TypeError.
Proof. split; reflexivity. Qed.

(** ** More runs on the sample installation *)

Lemma DistanceDBIN_launch_scenario_witness :
  let cls := DistanceDBIN sample_profile sample_doc
               (constant_engine distance_result) sample_str in
  fst (launch cls (new cls "/data") 1%positive no_keywords sample_world) =
    inr [Measure {| cm_storage_path := "/data";
                    array_data := sample_partition;
                    connectivity := 1%positive;
                    title := "Distance matrix";
                    label_x := ""; label_y := "" |}].
Proof.
  cbv zeta.
  exact (proj2 (DistanceDBIN_launch_scenario sample_profile sample_doc
                  (constant_engine distance_result) sample_str "/data"
                  1%positive no_keywords sample_connectivity sample_world eq_refl
                  ltac:(vm_compute; reflexivity))
           0 "" distance_result sample_partition eq_refl eq_refl).
Defined.

Lemma DistanceRDM_launch_scenario_witness :
  let cls := DistanceRDM sample_profile sample_doc
               (constant_engine distance_result) sample_str in
  fst (launch cls (new cls "/data") 1%positive no_keywords sample_world) =
    inr [Measure {| cm_storage_path := "/data";
                    array_data := sample_weights;
                    connectivity := 1%positive;
                    title := "Reachability matrix";
                    label_x := ""; label_y := "" |};
         Measure {| cm_storage_path := "/data";
                    array_data := sample_partition;
                    connectivity := 1%positive;
                    title := "Distance matrix";
                    label_x := ""; label_y := "" |}].
Proof.
  cbv zeta.
  exact (proj2 (DistanceRDM_launch_scenario sample_profile sample_doc
                  (constant_engine distance_result) sample_str "/data"
                  1%positive no_keywords sample_connectivity sample_world eq_refl
                  ltac:(vm_compute; reflexivity))
           0 "" distance_result sample_weights sample_partition
           eq_refl eq_refl eq_refl).
Defined.

Lemma DistanceNETW_launch_scenario_witness :
  let cls := DistanceNETW sample_profile sample_doc
               (walks_engine scalar_total) sample_str in
  fst (launch cls (new cls "/data") 1%positive no_keywords sample_world) =
    inr [Measure {| cm_storage_path := "/data";
                    array_data := sample_weights;
                    connectivity := 1%positive;
                    title := "3D matrix";
                    label_x := ""; label_y := "" |};
         Wrapper {| vw_storage_path := "/data";
                    data_value := VFloat f12;
                    data_type := "float";
                    data_name := "Total number of walks found" |};
         Measure {| cm_storage_path := "/data";
                    array_data := sample_partition;
                    connectivity := 1%positive;
                    title := "Walk length distribution";
                    label_x := ""; label_y := "" |}].
Proof.
  cbv zeta.
  exact (proj2 (DistanceNETW_launch_scenario sample_profile sample_doc
                  (walks_engine scalar_total) sample_str "/data"
                  1%positive no_keywords sample_connectivity sample_world eq_refl
                  ltac:(vm_compute; reflexivity))
           0 "" (walks_result scalar_total) sample_weights scalar_total
           sample_partition eq_refl eq_refl eq_refl eq_refl).
Defined.

Lemma launch_raises_first_missing_key_witness :
  let cls := DistanceNETW sample_profile sample_doc
               (constant_engine {["Wq" := sample_weights]}) sample_str in
  fst (launch cls (new cls "/data") 1%positive no_keywords sample_world)
    = inl (KeyError "wlq").
Proof.
  cbv zeta.
  apply (launch_raises_first_missing_key sample_profile sample_doc
           (constant_engine {["Wq" := sample_weights]}) sample_str NETW
           (new (DistanceNETW sample_profile sample_doc
                   (constant_engine {["Wq" := sample_weights]}) sample_str)
              "/data")
           1%positive no_keywords sample_connectivity 0 "" {["Wq" := sample_weights]}
           ["Wq"] "wlq" ["twalk"] sample_world).
  - reflexivity.
  - vm_compute; reflexivity.
  - reflexivity.
  - reflexivity.
  - constructor; [exists sample_weights; reflexivity | constructor].
  - reflexivity.
Defined.

Lemma launch_forwards_kwargs_witness :
  let cls := ModularityOCSM sample_profile sample_doc
               (modularity_engine 0 "") sample_str in
  let kwargs := extra_kwargs in
  launch cls (new cls "/data") 1%positive colliding_kwargs sample_world
    = (inl TypeError, sample_world)
  /\ exists data,
       engine_calls (history (snd (launch cls (new cls "/data") 1%positive
                                     kwargs sample_world)))
         = [("[Ci,Q] = modularity_dir(CW);", data)]
       /\ data !! "CW" = Some sample_weights
       /\ data !! "gamma" = Some (VInt 1).
Proof.
  cbv zeta. split.
  - apply (proj1 (launch_forwards_kwargs sample_profile sample_doc
                    (modularity_engine 0 "") sample_str OCSM
                    (new (ModularityOCSM sample_profile sample_doc
                            (modularity_engine 0 "") sample_str) "/data")
                    1%positive colliding_kwargs sample_connectivity
                    sample_world eq_refl)).
    exists (VInt 5). reflexivity.
  - destruct (proj2 (launch_forwards_kwargs sample_profile sample_doc
                       (modularity_engine 0 "") sample_str OCSM
                       (new (ModularityOCSM sample_profile sample_doc
                               (modularity_engine 0 "") sample_str) "/data")
                       1%positive extra_kwargs
                       sample_connectivity sample_world eq_refl)
                     ltac:(vm_compute; reflexivity))
      as (data & Hcalls & Hcw & Hother & _).
    exists data. split; [exact Hcalls|]. split; [exact Hcw|].
    rewrite (Hother "gamma"); [reflexivity|discriminate].
Defined.

Lemma launch_propagates_engine_exception_witness :
  let cls := DistanceDBIN sample_profile sample_doc broken_engine
               sample_str in
  fst (launch cls (new cls "/data") 1%positive no_keywords sample_world)
    = inl (EngineError "matlab: command not found").
Proof.
  cbv zeta.
  apply (launch_propagates_engine_exception sample_profile sample_doc
           broken_engine sample_str DBIN
           (new (DistanceDBIN sample_profile sample_doc broken_engine
                   sample_str) "/data")
           1%positive no_keywords sample_connectivity
           (EngineError "matlab: command not found") sample_world);
    vm_compute; reflexivity.
Defined.

Lemma launch_without_weights_stops_early_witness :
  let cls := DistanceDBIN sample_profile sample_doc
               (constant_engine distance_result) sample_str in
  launch cls (new cls "/data") 2%positive ∅ sample_world
    = (inl AttributeError, sample_world).
Proof.
  cbv zeta.
  apply (launch_without_weights_stops_early sample_profile sample_doc
           (constant_engine distance_result) sample_str DBIN).
  reflexivity.
Defined.

Lemma launch_history_after_answer_witness :
  let cls := DistanceNETW sample_profile sample_doc
               (constant_engine {["Wq" := sample_weights]}) sample_str in
  history (snd (launch cls (new cls "/data") 1%positive no_keywords sample_world)) =
    [LogDebug "Finished MATLAB execution:{...}";
     LogDebug "MATLAB log: ";
     LogDebug "Code run in MATLAB: 0";
     RunMatlab "[Wq,twalk,wlq]  = findwalks(A);" {["A" := sample_weights]};
     LogInfo
       "Starting execution of MATLAB code:[Wq,twalk,wlq]  = findwalks(A);";
     AddToPath "/opt/tvb/externals/BCT"].
Proof.
  cbv zeta.
  apply (launch_history_after_answer sample_profile sample_doc
           (constant_engine {["Wq" := sample_weights]}) sample_str NETW
           (new (DistanceNETW sample_profile sample_doc
                   (constant_engine {["Wq" := sample_weights]}) sample_str)
              "/data")
           1%positive no_keywords sample_connectivity 0 "" {["Wq" := sample_weights]}
           sample_world);
    vm_compute; reflexivity.
Defined.

Lemma DistanceRDA_agrees_with_DistanceRDM_witness :
  let child := DistanceRDA sample_profile sample_doc
                 (constant_engine distance_result) sample_str in
  let parent := DistanceRDM sample_profile sample_doc
                  (constant_engine distance_result) sample_str in
  fst (launch child (new child "/data") 1%positive ∅ sample_world)
    = fst (launch parent (new parent "/data") 1%positive ∅ sample_world).
Proof.
  cbv zeta.
  apply (DistanceRDA_agrees_with_DistanceRDM sample_profile sample_doc
           (constant_engine distance_result) sample_str "/data" 1%positive
           ∅ sample_connectivity sample_world eq_refl).
  reflexivity.
Defined.

Lemma snippets_match_launches_witness :
  Forall2 (built_from (walks_result scalar_total))
    ["Wq"; "twalk"; "wlq"]
    [Measure (measure_of sample_instance 1%positive "3D matrix"
                sample_weights);
     Wrapper (float_wrapper_of sample_instance
                "Total number of walks found" f12);
     Measure (measure_of sample_instance 1%positive
                "Walk length distribution" sample_partition)].
Proof.
  exact (proj2 (snippets_match_launches sample_profile sample_doc
                  (walks_engine scalar_total) sample_str NETW "/data"
                  1%positive no_keywords sample_connectivity 0 ""
                  (walks_result scalar_total)
                  [Measure (measure_of sample_instance 1%positive
                              "3D matrix" sample_weights);
                   Wrapper (float_wrapper_of sample_instance
                              "Total number of walks found" f12);
                   Measure (measure_of sample_instance 1%positive
                              "Walk length distribution" sample_partition)]
                  sample_world eq_refl ltac:(vm_compute; reflexivity)
                  eq_refl eq_refl)).
Defined.

Lemma launch_outputs_come_from_result_witness :
  exists k,
    sample_result !! k = Some sample_partition /\ In k ["Ci"; "Q"].
Proof.
  exact (proj1
           (proj1 (proj2
              (launch_outputs_come_from_result sample_profile sample_doc
                 (modularity_engine 0 "") sample_str OCSM sample_instance
                 1%positive ∅ sample_connectivity 0 "" sample_result
                 [Measure (measure_of sample_instance 1%positive
                             "Optimal Community Structure" sample_partition);
                  Wrapper (float_wrapper_of sample_instance
                             "Maximized Modularity" f042)]
                 sample_world eq_refl eq_refl eq_refl))
              (measure_of sample_instance 1%positive
                 "Optimal Community Structure" sample_partition)
              (or_introl eq_refl))).
Defined.
